(** * GCL::sqlWriter — a shallow embedding of [source/SQLWriter.cpp]

    The class composes SQL statements from accumulated clause state and
    loads a logical-to-physical name map from a directive file.  The
    member functions are embedded as functions on an explicit [sqlWriter]
    record; functions that can throw return a [result]. *)

From Stdlib Require Import ZArith NArith Ascii DecimalString.
From Stdlib Require String.
From stdpp Require Import base option list strings gmap.

(** ** Standard-library facilities used by the source *)

Module Std.

(** [std::to_string] on an unsigned 64-bit value. *)
Definition to_string_u64 (n : N) : string :=
  NilZero.string_of_uint (N.to_uint n).

(** [std::to_string] on an [int]. *)
Definition to_string_int (z : Z) : string :=
  NilZero.string_of_int (Z.to_int z).

(** [std::numeric_limits<std::uint64_t>::max()]. *)
Definition uint64_max : N := 18446744073709551615%N.

(** A caller's integer taken as the [std::uint64_t] argument. *)
Definition to_uint64 (n : N) : N := (n mod 2 ^ 64)%N.

(** [s.empty()]. *)
Definition empty (s : string) : bool :=
  match s with EmptyString => true | String _ _ => false end.

(** [s.front()]; on the empty string the read lands on the terminating
    NUL of the buffer. *)
Definition front (s : string) : ascii :=
  match s with EmptyString => Ascii.zero | String c _ => c end.

(** The result type of [find_first_of]: a valid index, or
    [std::string::npos].  [npos] is the greatest [size_t] and no string
    is that long, so it compares above every index. *)
Inductive size_t := idx (i : nat) | npos.

Definition size_t_eqb (a b : size_t) : bool :=
  match a, b with
  | idx i, idx j => Nat.eqb i j
  | npos, npos => true
  | _, _ => false
  end.

(** [a < b] on [size_t]. *)
Definition ltb (a b : size_t) : bool :=
  match a, b with
  | idx i, idx j => Nat.ltb i j
  | idx _, npos => true
  | npos, _ => false
  end.

Fixpoint drop (n : nat) (s : string) : string :=
  match n, s with
  | O, _ => s
  | S n', String _ r => drop n' r
  | S _, EmptyString => EmptyString
  end.

Fixpoint take (n : nat) (s : string) : string :=
  match n, s with
  | O, _ => EmptyString
  | S n', String c r => String c (take n' r)
  | S _, EmptyString => EmptyString
  end.

(** Index of the first occurrence of [c] in [s]. *)
Fixpoint index_of (c : ascii) (s : string) : option nat :=
  match s with
  | EmptyString => None
  | String a r => if Ascii.eqb a c then Some O else S <$> index_of c r
  end.

(** [s.find_first_of(c, pos)]. *)
Definition find_first_of (s : string) (c : ascii) (pos : size_t) : size_t :=
  match pos with
  | npos => npos
  | idx p =>
      match index_of c (drop p s) with
      | Some i => idx (p + i)
      | None => npos
      end
  end.

(** [s.substr(0, n)]. *)
Definition substr0 (s : string) (n : size_t) : string :=
  match n with
  | npos => s
  | idx k => take k s
  end.

(** [s.substr(b + 1, e - b - 1)] for [b < e]: the characters strictly
    between the two positions, up to the end of [s] when [e] is [npos]. *)
Definition substr_between (s : string) (b e : size_t) : string :=
  match b, e with
  | idx i, idx j => take (j - i - 1) (drop (i + 1) s)
  | idx i, npos => drop (i + 1) s
  | npos, _ => EmptyString
  end.

(** [std::isspace] in the classic locale. *)
Definition isspace (c : ascii) : bool :=
  let n := nat_of_ascii c in
  Nat.eqb n 32 || (Nat.leb 9 n && Nat.leb n 13).

Fixpoint trim_left (s : string) : string :=
  match s with
  | EmptyString => EmptyString
  | String c r => if isspace c then trim_left r else s
  end.

Fixpoint trim_right (s : string) : string :=
  match s with
  | EmptyString => EmptyString
  | String c r =>
      match trim_right r with
      | EmptyString => if isspace c then EmptyString else String c EmptyString
      | r' => String c r'
      end
  end.

(** [boost::trim]. *)
Definition trim (s : string) : string := trim_right (trim_left s).

(** The successive results of [std::getline] until the stream stops being
    [good()]: the text between line feeds, the last piece included even
    when it is empty. *)
Fixpoint getlines (content : string) : list string :=
  match content with
  | EmptyString => [EmptyString]
  | String c r =>
      if Ascii.eqb c "010"%char then EmptyString :: getlines r
      else
        match getlines r with
        | l :: ls => String c l :: ls
        | [] => [String c EmptyString]
        end
  end.

End Std.

(** ** Errors *)

(** Modelled from the spec: the error codes and the error macros are
    declared in [include/error.h] and [include/GCLError.h]; an error is a
    typed failure that halts the current operation.  These are the codes the
    source passes to [RUNTIME_ERROR]. *)
Inductive errcode :=
| E_SQLWRITER_UNKNOWNDIALECT
| E_SQLWRITER_NOSELECTFIELDS
| E_SQLWRITER_NOFROMFIELD
| E_SQLWRITER_SYNTAXERROR
| E_SQLWRITER_INVALIDTABLENAME
| E_SQLWRITER_INVALIDCOMMAND.

(** Modelled from the spec: what the error macros throw,
    [RUNTIME_ERROR(msg [, code, library])], a failed
    [RUNTIME_ASSERT(cond, msg)], and [CODE_ERROR]. *)
Inductive exception :=
| CRuntimeError (msg : string) (code : option errcode)
| CRuntimeAssert (msg : string)
| CCodeError.

Inductive result (A : Type) :=
| OK (a : A)
| Throw (e : exception).
Arguments OK {A} a.
Arguments Throw {A} e.

(** Sequencing: an exception skips the rest of the function. *)
#[global] Instance result_bind : MBind result := fun A B k r =>
  match r with
  | OK a => k a
  | Throw e => Throw e
  end.

Definition RUNTIME_ASSERT (cond : bool) (msg : string) : result unit :=
  if cond then OK tt else Throw (CRuntimeAssert msg).

(** ** Data model *)

(** Modelled from the spec: the class and its enumerations are declared in
    [include/SQLWriter.h]; the constructors below are the enumerators, and
    the record fields the data members, that [source/SQLWriter.cpp] names. *)
Inductive EQueryType :=
| qt_none | qt_select | qt_insert | qt_delete | qt_update | qt_upsert.

(** Modelled from the spec: the dialect enumeration is declared in
    [include/SQLWriter.h]; these are the dialects the source names. *)
Inductive EDialect := MYSQL | MICROSOFT | POSTGRE.

Inductive EOrderBy := ASC | DESC.

Inductive EJoin := JOIN_LEFT | JOIN_RIGHT | JOIN_INNER | JOIN_FULL.

(** Modelled from the spec: [parameter] is a type-erased value of the
    storage library; the source inspects [type()] and calls [to_string()].
    A floating-point value carries its rendered text. *)
Inductive parameter :=
| P_integer (v : Z)
| P_real (text : string)
| P_boolean (b : bool)
| P_string (s : string)
| P_bindValue (name : string).

#[global] Instance EDialect_eq_dec : EqDecision EDialect.
Proof. solve_decision. Defined.

#[global] Instance parameter_eq_dec : EqDecision parameter.
Proof. solve_decision. Defined.

#[global] Instance EOrderBy_eq_dec : EqDecision EOrderBy.
Proof. solve_decision. Defined.

#[global] Instance EJoin_eq_dec : EqDecision EJoin.
Proof. solve_decision. Defined.

Definition is_string (p : parameter) : bool :=
  match p with P_string _ => true | _ => false end.

Definition is_bindValue (p : parameter) : bool :=
  match p with P_bindValue _ => true | _ => false end.

Definition to_string (p : parameter) : string :=
  match p with
  | P_integer v => Std.to_string_int v
  | P_real text => text
  | P_boolean b => if b then "true" else "false"
  | P_string s => s
  | P_bindValue name => name
  end.

Definition parameterPair : Type := string * parameter.
Definition parameterTriple : Type := string * string * parameter.
Definition parameterJoin : Type := string * string * EJoin * string * string.
Definition parameterStorage : Type := list parameter.

(** Modelled from the spec: a column and a table of the database map, each
    with its (logical, mapped) pair of names, as the map functions use
    them; the structures are declared in [include/SQLWriter.h]. *)
Record SColumnData := { columnName : string * string }.

Record STableData := {
  tableName : string * string;
  columnData : gmap string SColumnData
}.

(** Modelled from the spec: the data members of [sqlWriter], after
    [resetQuery] and the accessors of the source; [limitValue],
    [offsetValue] and [countValue] are [std::optional]. *)
Record sqlWriter := {
  dialect : EDialect;
  queryType : EQueryType;
  selectFields : list string;
  fromFields : list (string * string);
  joinFields : list parameterJoin;
  whereFields : list parameterTriple;
  orderByFields : list (string * EOrderBy);
  setFields : list parameterPair;
  valueFields : list parameterStorage;
  insertTable : string;
  updateTable : string;
  deleteTable : string;
  limitValue : option N;
  offsetValue : option N;
  countValue : option string;
  distinct_ : bool;
  maxFields : list (string * string);
  minFields : list (string * string);
  databaseMap : gmap string STableData
}.

(** ** verifyOperator *)

Definition verifyOperator (oper : string) : bool :=
  String.eqb oper "=" || String.eqb oper "<>" || String.eqb oper "!=" ||
  String.eqb oper ">" || String.eqb oper "<" || String.eqb oper ">=" ||
  String.eqb oper "<=" || String.eqb oper "BETWEEN" ||
  String.eqb oper "LIKE" || String.eqb oper "IN".

Definition operator_whitelist : list string :=
  ["="; "<>"; "!="; ">"; "<"; ">="; "<="; "BETWEEN"; "LIKE"; "IN"].

(** ** Map-file constants and diagnostics *)

Definition TABLE : string := "TABLE".
Definition COLUMN : string := "COLUMN".
Definition END : string := "END".

(** A line written to [std::clog]: the file banner
    [Error in SQL map file: <ifn>], or a text around the line number. *)
Inductive clogLine :=
| clog_file (ifn : string)
| clog_line (before : string) (lineNumber : Z) (after : string).

(** How [readMapFile] ends: normally, or by an exception after the lines it
    logged; the writer is mutated in place, so it is there either way. *)
Inductive loadResult :=
| Loaded (w : sqlWriter)
| Aborted (w : sqlWriter) (clog : list clogLine) (e : exception).

(** The columns declared under a table; [currentTable] always names a table
    of the map, the empty map stands for the lookup that cannot miss. *)
Definition columnsOf (w : sqlWriter) (table : string) : gmap string SColumnData :=
  match databaseMap w !! table with
  | Some data => columnData data
  | None => ∅
  end.

(** ** Field assignment *)

Definition set_queryType (v : EQueryType) (w : sqlWriter) : sqlWriter :=
  Build_sqlWriter (dialect w) v (selectFields w) (fromFields w) (joinFields w)
    (whereFields w) (orderByFields w) (setFields w) (valueFields w)
    (insertTable w) (updateTable w) (deleteTable w) (limitValue w)
    (offsetValue w) (countValue w) (distinct_ w) (maxFields w) (minFields w)
    (databaseMap w).

Definition set_selectFields (v : list string) (w : sqlWriter) : sqlWriter :=
  Build_sqlWriter (dialect w) (queryType w) v (fromFields w) (joinFields w)
    (whereFields w) (orderByFields w) (setFields w) (valueFields w)
    (insertTable w) (updateTable w) (deleteTable w) (limitValue w)
    (offsetValue w) (countValue w) (distinct_ w) (maxFields w) (minFields w)
    (databaseMap w).

Definition set_fromFields (v : list (string * string)) (w : sqlWriter) : sqlWriter :=
  Build_sqlWriter (dialect w) (queryType w) (selectFields w) v (joinFields w)
    (whereFields w) (orderByFields w) (setFields w) (valueFields w)
    (insertTable w) (updateTable w) (deleteTable w) (limitValue w)
    (offsetValue w) (countValue w) (distinct_ w) (maxFields w) (minFields w)
    (databaseMap w).

Definition set_joinFields (v : list parameterJoin) (w : sqlWriter) : sqlWriter :=
  Build_sqlWriter (dialect w) (queryType w) (selectFields w) (fromFields w) v
    (whereFields w) (orderByFields w) (setFields w) (valueFields w)
    (insertTable w) (updateTable w) (deleteTable w) (limitValue w)
    (offsetValue w) (countValue w) (distinct_ w) (maxFields w) (minFields w)
    (databaseMap w).

Definition set_whereFields (v : list parameterTriple) (w : sqlWriter) : sqlWriter :=
  Build_sqlWriter (dialect w) (queryType w) (selectFields w) (fromFields w)
    (joinFields w) v (orderByFields w) (setFields w) (valueFields w)
    (insertTable w) (updateTable w) (deleteTable w) (limitValue w)
    (offsetValue w) (countValue w) (distinct_ w) (maxFields w) (minFields w)
    (databaseMap w).

Definition set_orderByFields (v : list (string * EOrderBy)) (w : sqlWriter) : sqlWriter :=
  Build_sqlWriter (dialect w) (queryType w) (selectFields w) (fromFields w)
    (joinFields w) (whereFields w) v (setFields w) (valueFields w)
    (insertTable w) (updateTable w) (deleteTable w) (limitValue w)
    (offsetValue w) (countValue w) (distinct_ w) (maxFields w) (minFields w)
    (databaseMap w).

Definition set_setFields (v : list parameterPair) (w : sqlWriter) : sqlWriter :=
  Build_sqlWriter (dialect w) (queryType w) (selectFields w) (fromFields w)
    (joinFields w) (whereFields w) (orderByFields w) v (valueFields w)
    (insertTable w) (updateTable w) (deleteTable w) (limitValue w)
    (offsetValue w) (countValue w) (distinct_ w) (maxFields w) (minFields w)
    (databaseMap w).

Definition set_valueFields (v : list parameterStorage) (w : sqlWriter) : sqlWriter :=
  Build_sqlWriter (dialect w) (queryType w) (selectFields w) (fromFields w)
    (joinFields w) (whereFields w) (orderByFields w) (setFields w) v
    (insertTable w) (updateTable w) (deleteTable w) (limitValue w)
    (offsetValue w) (countValue w) (distinct_ w) (maxFields w) (minFields w)
    (databaseMap w).

Definition set_insertTable (v : string) (w : sqlWriter) : sqlWriter :=
  Build_sqlWriter (dialect w) (queryType w) (selectFields w) (fromFields w)
    (joinFields w) (whereFields w) (orderByFields w) (setFields w)
    (valueFields w) v (updateTable w) (deleteTable w) (limitValue w)
    (offsetValue w) (countValue w) (distinct_ w) (maxFields w) (minFields w)
    (databaseMap w).

Definition set_updateTable (v : string) (w : sqlWriter) : sqlWriter :=
  Build_sqlWriter (dialect w) (queryType w) (selectFields w) (fromFields w)
    (joinFields w) (whereFields w) (orderByFields w) (setFields w)
    (valueFields w) (insertTable w) v (deleteTable w) (limitValue w)
    (offsetValue w) (countValue w) (distinct_ w) (maxFields w) (minFields w)
    (databaseMap w).

Definition set_deleteTable (v : string) (w : sqlWriter) : sqlWriter :=
  Build_sqlWriter (dialect w) (queryType w) (selectFields w) (fromFields w)
    (joinFields w) (whereFields w) (orderByFields w) (setFields w)
    (valueFields w) (insertTable w) (updateTable w) v (limitValue w)
    (offsetValue w) (countValue w) (distinct_ w) (maxFields w) (minFields w)
    (databaseMap w).

Definition set_limitValue (v : option N) (w : sqlWriter) : sqlWriter :=
  Build_sqlWriter (dialect w) (queryType w) (selectFields w) (fromFields w)
    (joinFields w) (whereFields w) (orderByFields w) (setFields w)
    (valueFields w) (insertTable w) (updateTable w) (deleteTable w) v
    (offsetValue w) (countValue w) (distinct_ w) (maxFields w) (minFields w)
    (databaseMap w).

Definition set_offsetValue (v : option N) (w : sqlWriter) : sqlWriter :=
  Build_sqlWriter (dialect w) (queryType w) (selectFields w) (fromFields w)
    (joinFields w) (whereFields w) (orderByFields w) (setFields w)
    (valueFields w) (insertTable w) (updateTable w) (deleteTable w)
    (limitValue w) v (countValue w) (distinct_ w) (maxFields w) (minFields w)
    (databaseMap w).

Definition set_countValue (v : option string) (w : sqlWriter) : sqlWriter :=
  Build_sqlWriter (dialect w) (queryType w) (selectFields w) (fromFields w)
    (joinFields w) (whereFields w) (orderByFields w) (setFields w)
    (valueFields w) (insertTable w) (updateTable w) (deleteTable w)
    (limitValue w) (offsetValue w) v (distinct_ w) (maxFields w) (minFields w)
    (databaseMap w).

Definition set_distinct_ (v : bool) (w : sqlWriter) : sqlWriter :=
  Build_sqlWriter (dialect w) (queryType w) (selectFields w) (fromFields w)
    (joinFields w) (whereFields w) (orderByFields w) (setFields w)
    (valueFields w) (insertTable w) (updateTable w) (deleteTable w)
    (limitValue w) (offsetValue w) (countValue w) v (maxFields w) (minFields w)
    (databaseMap w).

Definition set_maxFields (v : list (string * string)) (w : sqlWriter) : sqlWriter :=
  Build_sqlWriter (dialect w) (queryType w) (selectFields w) (fromFields w)
    (joinFields w) (whereFields w) (orderByFields w) (setFields w)
    (valueFields w) (insertTable w) (updateTable w) (deleteTable w)
    (limitValue w) (offsetValue w) (countValue w) (distinct_ w) v (minFields w)
    (databaseMap w).

Definition set_minFields (v : list (string * string)) (w : sqlWriter) : sqlWriter :=
  Build_sqlWriter (dialect w) (queryType w) (selectFields w) (fromFields w)
    (joinFields w) (whereFields w) (orderByFields w) (setFields w)
    (valueFields w) (insertTable w) (updateTable w) (deleteTable w)
    (limitValue w) (offsetValue w) (countValue w) (distinct_ w) (maxFields w) v
    (databaseMap w).

Definition set_databaseMap (v : gmap string STableData) (w : sqlWriter) : sqlWriter :=
  Build_sqlWriter (dialect w) (queryType w) (selectFields w) (fromFields w)
    (joinFields w) (whereFields w) (orderByFields w) (setFields w)
    (valueFields w) (insertTable w) (updateTable w) (deleteTable w)
    (limitValue w) (offsetValue w) (countValue w) (distinct_ w) (maxFields w)
    (minFields w) v.

(** ** The fluent interface *)

Module Writer.

(** Modelled from the spec: the constructor is declared in
    [include/SQLWriter.h]; a builder is created empty with no query kind,
    configured for one dialect. *)
Definition create (d : EDialect) : sqlWriter :=
  {| dialect := d; queryType := qt_none; selectFields := [];
     fromFields := []; joinFields := []; whereFields := [];
     orderByFields := []; setFields := []; valueFields := [];
     insertTable := ""; updateTable := ""; deleteTable := "";
     limitValue := None; offsetValue := None; countValue := None;
     distinct_ := false; maxFields := []; minFields := [];
     databaseMap := ∅ |}.

Definition count (countExpression : string) (w : sqlWriter) : sqlWriter :=
  set_countValue (Some countExpression) w.

Definition distinct (w : sqlWriter) : sqlWriter :=
  set_distinct_ true w.

Definition from (fromString alias : string) (w : sqlWriter) : sqlWriter :=
  set_fromFields (fromFields w ++ [(fromString, alias)]) w.

Definition from_list (fields : list string) (w : sqlWriter) : sqlWriter :=
  foldl (fun w elem => set_fromFields (fromFields w ++ [(elem, "")]) w)
    w fields.

Definition max (column as_ : string) (w : sqlWriter) : sqlWriter :=
  set_maxFields (maxFields w ++ [(column, as_)]) w.

Definition min (column as_ : string) (w : sqlWriter) : sqlWriter :=
  set_minFields (minFields w ++ [(column, as_)]) w.

Definition resetQuery (w : sqlWriter) : sqlWriter :=
  let w := set_selectFields [] w in
  let w := set_fromFields [] w in
  let w := set_whereFields [] w in
  let w := set_insertTable "" w in
  let w := set_valueFields [] w in
  let w := set_orderByFields [] w in
  let w := set_joinFields [] w in
  let w := set_limitValue None w in
  let w := set_offsetValue None w in
  let w := set_countValue None w in
  let w := set_distinct_ false w in
  let w := set_maxFields [] w in
  let w := set_minFields [] w in
  let w := set_updateTable "" w in
  let w := set_setFields [] w in
  set_queryType qt_none w.

Definition resetWhere (w : sqlWriter) : sqlWriter :=
  set_whereFields [] w.

(** The guard every kind-entering method starts with. *)
Definition restart (w : sqlWriter) : sqlWriter :=
  match queryType w with
  | qt_none => w
  | _ => resetQuery w
  end.

Definition deleteFrom (tableName : string) (w : sqlWriter) : sqlWriter :=
  let w := restart w in
  let w := set_queryType qt_delete w in
  set_deleteTable tableName w.

Definition insertInto (tableName : string) (w : sqlWriter) : sqlWriter :=
  let w := restart w in
  let w := set_queryType qt_insert w in
  set_insertTable tableName w.

Definition insertInto_fields (tableName : string) (fields : list string)
    (w : sqlWriter) : sqlWriter :=
  let w := restart w in
  let w := set_queryType qt_insert w in
  let w := set_insertTable tableName w in
  foldl (fun w elem => set_selectFields (selectFields w ++ [elem]) w)
    w fields.

Definition join (fields : list parameterJoin) (w : sqlWriter) : sqlWriter :=
  foldl (fun w elem => set_joinFields (joinFields w ++ [elem]) w) w fields.

Definition limit (limit : N) (w : sqlWriter) : sqlWriter :=
  set_limitValue (Some (Std.to_uint64 limit)) w.

Definition offset (offset : N) (w : sqlWriter) : sqlWriter :=
  set_offsetValue (Some (Std.to_uint64 offset)) w.

Definition orderBy (fields : list (string * EOrderBy)) (w : sqlWriter)
    : sqlWriter :=
  foldl (fun w elem => set_orderByFields (orderByFields w ++ [elem]) w)
    w fields.

Definition select (w : sqlWriter) : sqlWriter :=
  let w := restart w in
  set_queryType qt_select w.

Definition select_fields (fields : list string) (w : sqlWriter) : sqlWriter :=
  let w := select w in
  foldl (fun w elem => set_selectFields (selectFields w ++ [elem]) w)
    w fields.

Definition select_table (tableName : string) (fields : list string)
    (w : sqlWriter) : sqlWriter :=
  let w := select w in
  foldl (fun w elem =>
           set_selectFields (selectFields w ++ [tableName +:+ "." +:+ elem]) w)
    w fields.

Definition set (columnName : string) (value : parameter) (w : sqlWriter)
    : sqlWriter :=
  set_setFields (setFields w ++ [(columnName, value)]) w.

Definition set_list (fields : list parameterPair) (w : sqlWriter) : sqlWriter :=
  foldl (fun w elem => set_setFields (setFields w ++ [elem]) w) w fields.

Definition update (tableName : string) (w : sqlWriter) : sqlWriter :=
  let w := restart w in
  let w := set_queryType qt_update w in
  set_updateTable tableName w.

Definition upsert (tableName : string) (w : sqlWriter) : sqlWriter :=
  let w := restart w in
  let w := set_queryType qt_upsert w in
  set_insertTable tableName w.

Definition values (fields : list parameterStorage) (w : sqlWriter) : sqlWriter :=
  foldl (fun w f => set_valueFields (valueFields w ++ [f]) w) w fields.

Definition where_ (fields : list parameterTriple) (w : sqlWriter) : sqlWriter :=
  foldl (fun w elem => set_whereFields (whereFields w ++ [elem]) w) w fields.

(** *** Name mapping (both lookups are unimplemented pass-throughs) *)

Definition getColumnMap (w : sqlWriter) (columnName : string) : string :=
  let returnValue := columnName in
  returnValue.

Definition getTableMap (w : sqlWriter) (search : string) : string :=
  let returnValue := search in
  returnValue.

(** *** Clause renderers *)

(** The chain on the value's dynamic type that [createInsertQuery] and
    [createSetClause] both spell out: text is quoted, a bind value gets a
    leading colon unless it starts with a colon or a question mark. *)
Definition insertValueText (innerElement : parameter) : string :=
  if is_string innerElement then
    "'" +:+ to_string innerElement +:+ "'"
  else if is_bindValue innerElement then
    let temp := to_string innerElement in
    if Ascii.eqb (Std.front temp) ":" then temp
    else if Ascii.eqb (Std.front temp) "?" then temp
    else ":" +:+ temp
  else
    to_string innerElement.

(** The shorter chain of [createUpsertQuery]: only text is special. *)
Definition upsertValueText (v : parameter) : string :=
  if is_string v then "'" +:+ to_string v +:+ "'" else to_string v.

Definition createWhereClause (w : sqlWriter) : string :=
  let returnValue := " WHERE " in
  fst (foldl (fun '((returnValue, first) : string * bool) (it : parameterTriple) =>
    let returnValue := if first then returnValue else returnValue +:+ " AND " in
    let returnValue := returnValue +:+ "(" in
    let returnValue := returnValue +:+ getColumnMap w (it.1.1) in
    let returnValue := returnValue +:+ " " in
    let returnValue := returnValue +:+ it.1.2 in
    let returnValue :=
      if is_string (it.2) then
        ((returnValue +:+ " '") +:+ to_string (it.2)) +:+ "')"
      else
        ((returnValue +:+ " ") +:+ to_string (it.2)) +:+ ")" in
    (returnValue, false)) (returnValue, true) (whereFields w)).

Definition createDeleteQuery (w : sqlWriter) : string :=
  let returnValue := "DELETE FROM " in
  let returnValue := returnValue +:+ getColumnMap w (deleteTable w) in
  let returnValue := returnValue +:+ createWhereClause w in
  returnValue.

Definition createInsertQuery (w : sqlWriter) : string :=
  let returnValue := ("INSERT INTO " +:+ insertTable w) +:+ "(" in
  let firstRow := true in
  let firstValue := true in
  let '(returnValue, firstValue) :=
    foldl (fun '((returnValue, firstValue) : string * bool) (element : string) =>
      let returnValue :=
        if firstValue then returnValue else returnValue +:+ ", " in
      let columnName := element in
      (returnValue +:+ columnName, false))
      (returnValue, firstValue) (selectFields w) in
  let returnValue := returnValue +:+ ") VALUES " in
  fst (foldl (fun '((returnValue, firstRow) : string * bool) (outerElement : parameterStorage) =>
    let returnValue :=
      if firstRow then returnValue else returnValue +:+ ", " in
    let returnValue := returnValue +:+ "(" in
    let returnValue :=
      fst (foldl (fun '((returnValue, firstValue) : string * bool) (innerElement : parameter) =>
        let returnValue :=
          if firstValue then returnValue else returnValue +:+ ", " in
        (returnValue +:+ insertValueText innerElement, false))
        (returnValue, true) outerElement) in
    (returnValue +:+ ")", false)) (returnValue, firstRow) (valueFields w)).

Definition createLimitClause (w : sqlWriter) : result string :=
  let returnValue := "" in
  match dialect w with
  | MYSQL =>
      match offsetValue w with
      | Some offset =>
          OK ((("LIMIT " +:+ Std.to_string_u64 offset) +:+ ", ")
              +:+ Std.to_string_u64
                    (match limitValue w with
                     | Some limit => limit
                     | None => Std.uint64_max
                     end)
              +:+ " ")
      | None =>
          match limitValue w with
          | Some limit => OK (("LIMIT " +:+ Std.to_string_u64 limit) +:+ " ")
          | None => OK returnValue
          end
      end
  | POSTGRE => OK returnValue
  | _ => Throw (CRuntimeError "Unknown dialect" (Some E_SQLWRITER_UNKNOWNDIALECT))
  end.

Definition createSetClause (w : sqlWriter) : result string :=
  _ ← RUNTIME_ASSERT (negb (bool_decide (setFields w = [])))
        "No Set fields defined for update query.";
  let returnValue := "SET " in
  OK (fst (foldl (fun '((returnValue, firstValue) : string * bool) (element : parameterPair) =>
    let returnValue :=
      if firstValue then returnValue else returnValue +:+ ", " in
    let returnValue := (returnValue +:+ element.1) +:+ " = " in
    (returnValue +:+ insertValueText (element.2), false))
    (returnValue, true) (setFields w))).

Definition createUpdateQuery (w : sqlWriter) : result string :=
  let returnValue := ("UPDATE " +:+ updateTable w) +:+ " " in
  setClause ← createSetClause w;
  let returnValue := returnValue +:+ setClause in
  let returnValue := returnValue +:+ createWhereClause w in
  OK returnValue.

Definition createUpsertQuery (w : sqlWriter) : result string :=
  _ ← RUNTIME_ASSERT (bool_decide (dialect w = MYSQL))
        "Upsert only implemented for MYSQL.";
  match dialect w with
  | MYSQL =>
      let '(fieldNames, fieldValues, firstValue) :=
        foldl (fun '((fieldNames, fieldValues, firstValue) : string * string * bool)
                   (element : parameterTriple) =>
          let '(fieldNames, fieldValues) :=
            if firstValue then (fieldNames, fieldValues)
            else (fieldNames +:+ ", ", fieldValues +:+ ", ") in
          let fieldNames := fieldNames +:+ getColumnMap w (element.1.1) in
          (fieldNames, fieldValues +:+ upsertValueText (element.2), false))
          ("", "", true) (whereFields w) in
      let '(fieldNames, fieldValues, firstValue) :=
        foldl (fun '((fieldNames, fieldValues, firstValue) : string * string * bool)
                   (element : parameterPair) =>
          let '(fieldNames, fieldValues) :=
            if firstValue then (fieldNames, fieldValues)
            else (fieldNames +:+ ", ", fieldValues +:+ ", ") in
          let fieldNames := fieldNames +:+ getColumnMap w (element.1) in
          (fieldNames, fieldValues +:+ upsertValueText (element.2), false))
          (fieldNames, fieldValues, firstValue) (setFields w) in
      let returnValue := ("INSERT INTO " +:+ insertTable w) +:+ "(" in
      let returnValue := returnValue +:+ (fieldNames +:+ ") VALUES (") in
      let returnValue := returnValue +:+ (fieldValues +:+ ") ") in
      let returnValue := returnValue +:+ "ON DUPLICATE KEY UPDATE " in
      let fieldValues :=
        fst (foldl (fun '((fieldValues, firstValue) : string * bool)
                        (element : parameterPair) =>
          let fieldValues :=
            if firstValue then fieldValues else fieldValues +:+ ", " in
          let fieldValues :=
            fieldValues +:+ (getColumnMap w (element.1) +:+ " = ") in
          (fieldValues +:+ upsertValueText (element.2), false))
          ("", true) (setFields w)) in
      OK (returnValue +:+ fieldValues)
  | _ => Throw CCodeError
  end.

Definition createFromClause (w : sqlWriter) : string :=
  let returnValue := " FROM " in
  let tableAlias := "" in
  fst (foldl (fun '((returnValue, first) : string * bool)
                  (element : string * string) =>
    let returnValue :=
      if first then returnValue else returnValue +:+ ", " in
    let tableName := element.1 in
    let returnValue := returnValue +:+ tableName in
    let returnValue :=
      if negb (Nat.eqb (String.length (element.2)) 0)
      then returnValue +:+ (" AS " +:+ tableAlias)
      else returnValue in
    (returnValue, false)) (returnValue, true) (fromFields w)).

(** The [default] branch of the switch is out of reach for the four join
    kinds, so the function never throws. *)
Definition createJoinClause (w : sqlWriter) : string :=
  foldl (fun (returnValue : string) (element : parameterJoin) =>
    let '(get0, get1, get2, get3, get4) := element in
    let returnValue :=
      match get2 with
      | JOIN_LEFT => returnValue +:+ " LEFT JOIN "
      | JOIN_RIGHT => returnValue +:+ " RIGHT JOIN "
      | JOIN_INNER => returnValue +:+ " INNER JOIN "
      | JOIN_FULL => returnValue +:+ "FULL JOIN "
      end in
    let returnValue := returnValue +:+ (get3 +:+ " ON ") in
    returnValue +:+
      ((((((get0 +:+ ".") +:+ get1) +:+ "=") +:+ get3) +:+ ".") +:+ get4))
    "" (joinFields w).

Definition createOrderByClause (w : sqlWriter) : string :=
  let returnValue := " ORDER BY " in
  fst (foldl (fun '((returnValue, first) : string * bool)
                  (it : string * EOrderBy) =>
    let returnValue :=
      if first then returnValue else returnValue +:+ ", " in
    let returnValue := returnValue +:+ getColumnMap w (it.1) in
    let returnValue := returnValue +:+ " " in
    let returnValue :=
      match it.2 with
      | ASC => returnValue +:+ "ASC "
      | DESC => returnValue +:+ "DESC "
      end in
    (returnValue, false)) (returnValue, true) (orderByFields w)).

Definition createSelectClause (w : sqlWriter) : string :=
  let returnValue := "SELECT " in
  let first := true in
  let returnValue :=
    match dialect w, limitValue w with
    | MICROSOFT, Some limit =>
        returnValue +:+ (("TOP " +:+ Std.to_string_u64 limit) +:+ " ")
    | _, _ => returnValue
    end in
  let returnValue :=
    if distinct_ w then returnValue +:+ "DISTINCT " else returnValue in
  let '(returnValue, first) :=
    foldl (fun '((returnValue, first) : string * bool) (it : string) =>
      let returnValue :=
        if first then returnValue else returnValue +:+ ", " in
      let columnName := it in
      (returnValue +:+ columnName, false))
      (returnValue, first) (selectFields w) in
  let '(returnValue, first) :=
    match countValue w with
    | Some countExpression =>
        let returnValue :=
          if first then returnValue else returnValue +:+ ", " in
        if String.eqb countExpression "*"
        then (returnValue +:+ "COUNT(*) ", false)
        else (returnValue +:+ (("COUNT(" +:+ countExpression) +:+ ") "), false)
    | None => (returnValue, first)
    end in
  let '(returnValue, first) :=
    if negb (bool_decide (maxFields w = [])) then
      foldl (fun '((returnValue, first) : string * bool) (element : string * string) =>
        let returnValue :=
          if first then returnValue else returnValue +:+ ", " in
        let returnValue := returnValue +:+ (("MAX(" +:+ element.1) +:+ ")") in
        let returnValue :=
          if negb (Std.empty (element.2))
          then returnValue +:+ (" AS " +:+ element.2)
          else returnValue in
        (returnValue, false)) (returnValue, first) (maxFields w)
    else (returnValue, first) in
  let '(returnValue, first) :=
    if negb (bool_decide (minFields w = [])) then
      foldl (fun '((returnValue, first) : string * bool) (element : string * string) =>
        let returnValue :=
          if first then returnValue else returnValue +:+ ", " in
        let returnValue := returnValue +:+ (("MIN(" +:+ element.1) +:+ ")") in
        let returnValue :=
          if negb (Std.empty (element.2))
          then returnValue +:+ (" AS " +:+ element.2)
          else returnValue in
        (returnValue, false)) (returnValue, first) (minFields w)
    else (returnValue, first) in
  returnValue.

Definition createSelectQuery (w : sqlWriter) : result string :=
  let returnValue := "" in
  returnValue ←
    (if negb (bool_decide (selectFields w = [])) || bool_decide (is_Some (countValue w))
        || negb (bool_decide (maxFields w = [])) || negb (bool_decide (minFields w = []))
     then OK (returnValue +:+ createSelectClause w)
     else Throw (CRuntimeError "MAPPED SQL WRITER: No Select fields in select clause."
                   (Some E_SQLWRITER_NOSELECTFIELDS)));
  returnValue ←
    (if negb (bool_decide (fromFields w = []))
     then OK (returnValue +:+ createFromClause w)
     else Throw (CRuntimeError "MAPPED SQL WRITER: No from fields in select clause."
                   (Some E_SQLWRITER_NOFROMFIELD)));
  let returnValue :=
    if negb (bool_decide (joinFields w = []))
    then returnValue +:+ createJoinClause w else returnValue in
  let returnValue :=
    if negb (bool_decide (whereFields w = []))
    then returnValue +:+ createWhereClause w else returnValue in
  let returnValue :=
    if negb (bool_decide (orderByFields w = []))
    then returnValue +:+ createOrderByClause w else returnValue in
  limitClause ← createLimitClause w;
  OK (returnValue +:+ limitClause).

(** *** The database map *)

Definition createColumn (tableName_ columnName_ : string) (w : sqlWriter)
    : bool * sqlWriter :=
  match databaseMap w !! tableName_ with
  | None => (false, w)
  | Some table =>
      match columnData table !! columnName_ with
      | Some _ => (false, w)
      | None =>
          let columnData_ := {| columnName := (columnName_, "") |} in
          let table :=
            {| tableName := tableName table;
               columnData := <[columnName_ := columnData_]> (columnData table) |} in
          (true, set_databaseMap (<[tableName_ := table]> (databaseMap w)) w)
      end
  end.

Definition createTable (tableName_ : string) (w : sqlWriter)
    : bool * sqlWriter :=
  match databaseMap w !! tableName_ with
  | Some _ => (false, w)
  | None =>
      let newTable := {| tableName := (tableName_, ""); columnData := ∅ |} in
      (true, set_databaseMap (<[tableName_ := newTable]> (databaseMap w)) w)
  end.

Definition setColumnMap (tableName_ columnName_ columnMap : string)
    (w : sqlWriter) : sqlWriter :=
  match databaseMap w !! tableName_ with
  | Some table =>
      match columnData table !! columnName_ with
      | Some _ =>
          let column := {| columnName := (columnName_, columnMap) |} in
          let table :=
            {| tableName := tableName table;
               columnData := <[columnName_ := column]> (columnData table) |} in
          set_databaseMap (<[tableName_ := table]> (databaseMap w)) w
      | None => w
      end
  | None => w
  end.

Definition setTableMap (tableName_ tableMap : string) (w : sqlWriter)
    : sqlWriter :=
  match databaseMap w !! tableName_ with
  | Some table =>
      let table :=
        {| tableName := (tableName_, tableMap);
           columnData := columnData table |} in
      set_databaseMap (<[tableName_ := table]> (databaseMap w)) w
  | None => w
  end.

(** *** Loading a map file *)

(** What one turn of the read loop carries to the next: the writer, the
    table in force, the first token (it is not cleared between lines) and
    the line counter. *)
Record mapLoop := {
  writer : sqlWriter;
  currentTable : string;
  szToken1 : string;
  lineNumber : Z
}.

(** A turn either falls through to [lineNumber++] or throws, after the
    lines it wrote to [std::clog]. *)
Inductive lineResult :=
| Continue (st : mapLoop)
| Raise (st : mapLoop) (clog : list clogLine) (e : exception).

Definition syntaxError : exception :=
  CRuntimeError "MAPPED SQL WRITER: Syntax Error." (Some E_SQLWRITER_SYNTAXERROR).

(** The body of the [while (ifs.good())] loop, up to the increment. *)
Definition readLine (ifn textLine : string) (st : mapLoop) : lineResult :=
  if Nat.ltb 1 (String.length textLine)
     && negb (Ascii.eqb (Std.front textLine) ";")
  then
    let spacePosn := Std.find_first_of textLine " " (Std.idx 0) in
    let szCommand := Std.trim (Std.substr0 textLine spacePosn) in
    let equalPosn := Std.find_first_of textLine "=" (Std.idx 0) in
    let token1S := Std.find_first_of textLine "[" (Std.idx 0) in
    let token1E := Std.find_first_of textLine "]" (Std.idx 0) in
    let token2S := Std.find_first_of textLine "[" equalPosn in
    let token2E := Std.find_first_of textLine "]" equalPosn in
    if negb (Std.ltb token1S token1E) && negb (String.eqb szCommand END)
    then
      Raise st []
        (CRuntimeError
           (((("Error in SQL map file:" +:+ ifn) +:+ "Syntax error on line: ")
             +:+ Std.to_string_int (lineNumber st))
            +:+ " - Needs at least one token.") None)
    else
      let szToken1 :=
        if Std.ltb token1S token1E
        then Std.substr_between textLine token1S token1E
        else szToken1 st in
      let szToken2 :=
        if Std.ltb token2S token2E
        then Std.substr_between textLine token2S token2E
        else "" in
      let st :=
        {| writer := writer st; currentTable := currentTable st;
           szToken1 := szToken1; lineNumber := lineNumber st |} in
      if String.eqb szCommand COLUMN then
        if Std.empty (currentTable st) then
          Raise st
            [clog_file ifn;
             clog_line "Syntax command on line: " (lineNumber st)
               " - COLUMN directive found, but no TABLE directive in force."]
            syntaxError
        else if Std.empty szToken1 then
          Raise st
            [clog_file ifn;
             clog_line "Syntax command on line: " (lineNumber st)
               " - COLUMN directive found, column name."]
            syntaxError
        else if bool_decide
                  (columnsOf (writer st) (currentTable st) !! szToken1 = None)
        then
          Raise st []
            (CRuntimeError
               (((("Error in SQL map file: " +:+ ifn)
                  +:+ "Syntax command on line: ")
                 +:+ Std.to_string_int (lineNumber st))
                +:+ " - Invalid column name.") None)
        else if negb (Std.empty szToken2) then
          Continue
            {| writer := setColumnMap (currentTable st) szToken1 szToken2 (writer st);
               currentTable := currentTable st;
               szToken1 := szToken1; lineNumber := lineNumber st |}
        else Continue st
      else if String.eqb szCommand TABLE then
        if negb (Std.empty (currentTable st)) then
          Raise st
            [clog_file ifn;
             clog_line "Syntax command on line: " (lineNumber st)
               " - TABLE directive found, but a TABLE directive is already specified."]
            syntaxError
        else if Std.empty szToken1 then
          Raise st
            [clog_file ifn;
             clog_line "Syntax command on line: " (lineNumber st)
               " - TABLE directive found, but no table name."]
            syntaxError
        else if bool_decide (databaseMap (writer st) !! szToken1 = None) then
          Raise st
            [clog_file ifn;
             clog_line "Error on line: " (lineNumber st) " - Invalid Table name."]
            (CRuntimeError "MAPPED SQL WRITER: Invalid Table Name."
               (Some E_SQLWRITER_INVALIDTABLENAME))
        else
          let currentTable := szToken1 in
          Continue
            {| writer :=
                 if negb (Std.empty szToken2)
                 then setTableMap currentTable szToken2 (writer st)
                 else writer st;
               currentTable := currentTable;
               szToken1 := szToken1; lineNumber := lineNumber st |}
      else if String.eqb szCommand END then
        if Std.size_t_eqb token1S Std.npos && Std.size_t_eqb token1E Std.npos
           && Std.size_t_eqb token2S Std.npos && Std.size_t_eqb token2E Std.npos
           && Std.size_t_eqb equalPosn Std.npos
        then
          Continue
            {| writer := writer st; currentTable := "";
               szToken1 := szToken1; lineNumber := lineNumber st |}
        else
          Raise st
            [clog_file ifn;
             clog_line "Syntax command on line: " (lineNumber st) ""]
            syntaxError
      else
        Raise st
          [clog_file ifn;
           clog_line "Invalid command on line: " (lineNumber st) ""]
          (CRuntimeError "MAPPED SQL WRITER: Invalid Command."
             (Some E_SQLWRITER_INVALIDCOMMAND))
  else Continue st.

(** The loop over the lines [std::getline] delivers. *)
Fixpoint readLines (ifn : string) (lines : list string) (st : mapLoop)
    : lineResult :=
  match lines with
  | [] => Continue st
  | textLine :: rest =>
      match readLine ifn textLine st with
      | Continue st =>
          readLines ifn rest
            {| writer := writer st; currentTable := currentTable st;
               szToken1 := szToken1 st; lineNumber := (lineNumber st + 1)%Z |}
      | Raise st clog e => Raise st clog e
      end
  end.

(** [sqlWriter::readMapFile].  [file] is what opening [ifn] for reading
    gives: the content, or nothing when the stream cannot be opened. *)
Definition readMapFile (ifn : string) (file : option string) (w : sqlWriter)
    : loadResult :=
  let st :=
    {| writer := w; currentTable := ""; szToken1 := ""; lineNumber := 1 |} in
  match file with
  | None =>
      Aborted w [] (CRuntimeError ("Could not open SQL map file:" +:+ ifn) None)
  | Some content =>
      match readLines ifn (Std.getlines content) st with
      | Continue st => Loaded (writer st)
      | Raise st clog e => Aborted (writer st) clog e
      end
  end.

(** [sqlWriter::string()]: the statement for the active query type. *)
Definition string (w : sqlWriter) : result string :=
  match queryType w with
  | qt_select => createSelectQuery w
  | qt_insert => OK (createInsertQuery w)
  | qt_update => createUpdateQuery w
  | qt_delete => OK (createDeleteQuery w)
  | qt_upsert => createUpsertQuery w
  | qt_none => Throw CCodeError
  end.

End Writer.

(** ** Sequences of calls on a builder *)

(** One call of the public interface. *)
Inductive call :=
| call_select
| call_select_fields (fields : list string)
| call_select_table (tableName_ : string) (fields : list string)
| call_insertInto (tableName_ : string)
| call_insertInto_fields (tableName_ : string) (fields : list string)
| call_update (tableName_ : string)
| call_deleteFrom (tableName_ : string)
| call_upsert (tableName_ : string)
| call_from (fromString alias : string)
| call_from_list (fields : list string)
| call_join (fields : list parameterJoin)
| call_where (fields : list parameterTriple)
| call_resetWhere
| call_set (columnName_ : string) (value : parameter)
| call_set_list (fields : list parameterPair)
| call_values (fields : list parameterStorage)
| call_orderBy (fields : list (string * EOrderBy))
| call_limit (limit : N)
| call_offset (offset : N)
| call_distinct
| call_count (countExpression : string)
| call_max (column as_ : string)
| call_min (column as_ : string)
| call_resetQuery
| call_createTable (tableName_ : string)
| call_createColumn (tableName_ columnName_ : string)
| call_setTableMap (tableName_ tableMap : string)
| call_setColumnMap (tableName_ columnName_ columnMap : string)
| call_readMapFile (ifn : string) (file : option string).

(** The builder after a call; a return value or an exception of the call is
    dropped, the mutation stays. *)
Definition perform (w : sqlWriter) (c : call) : sqlWriter :=
  match c with
  | call_select => Writer.select w
  | call_select_fields fields => Writer.select_fields fields w
  | call_select_table t fields => Writer.select_table t fields w
  | call_insertInto t => Writer.insertInto t w
  | call_insertInto_fields t fields => Writer.insertInto_fields t fields w
  | call_update t => Writer.update t w
  | call_deleteFrom t => Writer.deleteFrom t w
  | call_upsert t => Writer.upsert t w
  | call_from t a => Writer.from t a w
  | call_from_list fields => Writer.from_list fields w
  | call_join fields => Writer.join fields w
  | call_where fields => Writer.where_ fields w
  | call_resetWhere => Writer.resetWhere w
  | call_set c v => Writer.set c v w
  | call_set_list fields => Writer.set_list fields w
  | call_values fields => Writer.values fields w
  | call_orderBy fields => Writer.orderBy fields w
  | call_limit n => Writer.limit n w
  | call_offset n => Writer.offset n w
  | call_distinct => Writer.distinct w
  | call_count e => Writer.count e w
  | call_max c a => Writer.max c a w
  | call_min c a => Writer.min c a w
  | call_resetQuery => Writer.resetQuery w
  | call_createTable t => (Writer.createTable t w).2
  | call_createColumn t c => (Writer.createColumn t c w).2
  | call_setTableMap t m => Writer.setTableMap t m w
  | call_setColumnMap t c m => Writer.setColumnMap t c m w
  | call_readMapFile ifn file =>
      match Writer.readMapFile ifn file w with
      | Loaded w' => w'
      | Aborted w' _ _ => w'
      end
  end.

(** The calls that start a statement. *)
Definition entersKind (c : call) : bool :=
  match c with
  | call_select | call_select_fields _ | call_select_table _ _
  | call_insertInto _ | call_insertInto_fields _ _
  | call_update _ | call_deleteFrom _ | call_upsert _ => true
  | _ => false
  end.

Definition run (calls : list call) (w : sqlWriter) : sqlWriter :=
  foldl perform w calls.

(** The calls that go on with the statement in hand: they neither start a
    statement nor reset the builder. *)
Definition keepsStatement (c : call) : bool :=
  negb (entersKind c) &&
  match c with
  | call_resetQuery => false
  | _ => true
  end.

(** The rows handed to [values()] along a sequence of calls, in call order. *)
Fixpoint valuesOf (calls : list call) : list parameterStorage :=
  match calls with
  | [] => []
  | call_values fields :: rest => fields ++ valuesOf rest
  | _ :: rest => valuesOf rest
  end.

(** ** The statement shapes the specification gives *)

(** [joinWith sep l]: the elements of [l] with [sep] between neighbours. *)
Fixpoint joinWith (sep : string) (l : list string) : string :=
  match l with
  | [] => ""
  | x :: rest =>
      match rest with
      | [] => x
      | _ :: _ => x +:+ (sep +:+ joinWith sep rest)
      end
  end.

(** ValueFormatter: text in single quotes, a bind placeholder with a leading
    colon unless its name starts with a colon or a question mark, any other
    value as its literal. *)
Definition formatValue (p : parameter) : string :=
  match p with
  | P_string s => "'" +:+ (s +:+ "'")
  | P_bindValue (String ":" _ as name) => name
  | P_bindValue (String "?" _ as name) => name
  | P_bindValue name => ":" +:+ name
  | other => to_string other
  end.

(** [INSERT INTO <table>(<cols>) VALUES (<row1>), (<row2>), ...]. *)
Definition insertStatement (table : string) (cols : list string)
    (rows : list (list parameter)) : string :=
  "INSERT INTO " +:+ (table +:+ ("(" +:+ (joinWith ", " cols +:+ (") VALUES " +:+
    joinWith ", "
      (map (fun row => "(" +:+ (joinWith ", " (map formatValue row) +:+ ")"))
         rows))))).

(** A FROM entry as it is rendered: the table name, then the keyword alone
    when an alias was given. *)
Definition fromEntry (element : string * string) : string :=
  if Std.empty (element.2) then element.1 else element.1 +:+ " AS ".

(** The errors of the [MissingRequiredClause] kind. *)
Definition MissingRequiredClause (e : exception) : Prop :=
  match e with
  | CRuntimeError _ (Some E_SQLWRITER_NOSELECTFIELDS) => True
  | CRuntimeError _ (Some E_SQLWRITER_NOFROMFIELD) => True
  | CRuntimeAssert msg => msg = "No Set fields defined for update query."
  | _ => False
  end.

(** A Select has a projection source: select fields, a count expression or
    a min/max entry. *)
Definition hasProjection (w : sqlWriter) : Prop :=
  selectFields w <> [] \/ is_Some (countValue w) \/
  maxFields w <> [] \/ minFields w <> [].

(** ** Auxiliary notions for the proofs *)

Definition mapOnly (w w' : sqlWriter) : Prop :=
  exists m, w' = set_databaseMap m w.

Definition stateOf (r : Writer.lineResult) : Writer.mapLoop :=
  match r with
  | Writer.Continue st => st
  | Writer.Raise st _ _ => st
  end.

(** The accumulated text of a loop guarded by a [first] flag: nothing before
    the first element, the separator before every later one. *)
Fixpoint joinTail (sep : string) (l : list string) : string :=
  match l with
  | [] => ""
  | x :: rest => sep +:+ (x +:+ joinTail sep rest)
  end.

Definition joinFrom (first : bool) (sep : string) (l : list string) : string :=
  if first then joinWith sep l else joinTail sep l.

(** A MAX or MIN entry as it is rendered. *)
Definition aggregateEntry (name : string) (element : string * string) : string :=
  (name +:+ element.1 +:+ ")")
  +:+ (if Std.empty (element.2) then "" else " AS " +:+ element.2).

(** The command word of a line, as [readMapFile] cuts it out. *)
Definition commandOf (textLine : string) : string :=
  Std.trim (Std.substr0 textLine (Std.find_first_of textLine " " (Std.idx 0))).

(** The line has a first token: an opening bracket before the first closing
    one. *)
Definition hasToken1 (textLine : string) : bool :=
  Std.ltb (Std.find_first_of textLine "[" (Std.idx 0))
          (Std.find_first_of textLine "]" (Std.idx 0)).

(** A name that can stand between brackets on a directive line: it has no
    bracket, no equals sign and no line feed. *)
Fixpoint plainToken (s : string) : bool :=
  match s with
  | EmptyString => true
  | String c r =>
      negb (Ascii.eqb c "[") && negb (Ascii.eqb c "]") && negb (Ascii.eqb c "=")
      && negb (Ascii.eqb c "010") && plainToken r
  end.

Definition LF : string := String "010" "".

(** A directive line [<cmd> [<a>]=[<b>]]. *)
Definition directive (cmd a b : string) : string :=
  cmd +:+ (" [" +:+ (a +:+ ("]=[" +:+ (b +:+ "]")))).

(** The loop state [readMapFile] starts from. *)
Definition firstLine (w : sqlWriter) : Writer.mapLoop :=
  {| Writer.writer := w; Writer.currentTable := ""; Writer.szToken1 := "";
     Writer.lineNumber := 1 |}.

(** ** Notions for the further properties *)

(** A predicate as the WHERE clause writes it: column, operator and value
    in one pair of parentheses, text in single quotes. *)
Definition whereEntry (it : parameterTriple) : string :=
  "(" +:+ it.1.1 +:+ " " +:+ it.1.2 +:+ " " +:+ Writer.upsertValueText (it.2) +:+ ")".

(** An ordering key as the ORDER BY clause writes it. *)
Definition orderByEntry (it : string * EOrderBy) : string :=
  it.1 +:+ " " +:+ match it.2 with ASC => "ASC " | DESC => "DESC " end.

(** An assignment as the SET clause writes it. *)
Definition setEntry (element : parameterPair) : string :=
  element.1 +:+ " = " +:+ formatValue (element.2).

(** An assignment as the upsert's update list writes it. *)
Definition upsertEntry (element : parameterPair) : string :=
  element.1 +:+ " = " +:+ Writer.upsertValueText (element.2).

(** A join as the JOIN clause writes it. *)
Definition joinEntry (element : parameterJoin) : string :=
  let '(leftTable, leftColumn, kind, rightTable, rightColumn) := element in
  match kind with
  | JOIN_LEFT => " LEFT JOIN "
  | JOIN_RIGHT => " RIGHT JOIN "
  | JOIN_INNER => " INNER JOIN "
  | JOIN_FULL => "FULL JOIN "
  end +:+ rightTable +:+ " ON " +:+ leftTable +:+ "." +:+ leftColumn +:+ "="
      +:+ rightTable +:+ "." +:+ rightColumn.

(** The texts of a list, one after the other. *)
Fixpoint concatAll (l : list string) : string :=
  match l with
  | [] => ""
  | x :: rest => x +:+ concatAll rest
  end.

(** The COUNT entry of a projection list. *)
Definition countEntry (countExpression : string) : string :=
  if String.eqb countExpression "*" then "COUNT(*) "
  else "COUNT(" +:+ countExpression +:+ ") ".

(** The projection list of a Select, in the order the SELECT clause writes
    it: the select fields, the count, the MAX entries, the MIN entries. *)
Definition projectionList (w : sqlWriter) : list string :=
  selectFields w
  ++ match countValue w with
     | Some countExpression => [countEntry countExpression]
     | None => []
     end
  ++ map (aggregateEntry "MAX(") (maxFields w)
  ++ map (aggregateEntry "MIN(") (minFields w).

(** What follows the SELECT keyword before the projection list. *)
Definition selectPrefix (w : sqlWriter) : string :=
  match dialect w, limitValue w with
  | MICROSOFT, Some limit => "TOP " +:+ Std.to_string_u64 limit +:+ " "
  | _, _ => ""
  end +:+ (if distinct_ w then "DISTINCT " else "").

(** A clause that is written only when its list has entries. *)
Definition whenFilled {A : Type} (l : list A) (clause : string) : string :=
  match l with
  | [] => ""
  | _ :: _ => clause
  end.

(** The column names and the value texts an upsert inserts: those of the
    predicates first, then those of the assignments. *)
Definition upsertColumns (w : sqlWriter) : list string :=
  map (fun element : parameterTriple => element.1.1) (whereFields w)
  ++ map (fun element : parameterPair => element.1) (setFields w).

Definition upsertValues (w : sqlWriter) : list string :=
  map (fun element : parameterTriple => Writer.upsertValueText (element.2)) (whereFields w)
  ++ map (fun element : parameterPair => Writer.upsertValueText (element.2)) (setFields w).

(** The builder without the two members no renderer can reach while they
    are stale: the database map, and the delete table of an earlier
    statement. *)
Definition rendered (w : sqlWriter) : sqlWriter :=
  set_databaseMap ∅ (set_deleteTable "" w).

(** Two builders that render alike: they agree on every member but the
    database map and the delete table, and on the delete table too when the
    statement in hand is a Delete. *)
Definition renderAlike (w1 w2 : sqlWriter) : Prop :=
  rendered w1 = rendered w2 /\
  (queryType w1 = qt_delete -> deleteTable w1 = deleteTable w2).

(** Two writers declare the same names: the same tables, and under each
    table the same columns. *)
Definition sameNames (w w' : sqlWriter) : Prop :=
  dom (databaseMap w') = dom (databaseMap w) /\
  forall t, dom (columnsOf w' t) = dom (columnsOf w t).

(** The test at the head of the read loop: the line is longer than one
    character and does not start with a semicolon. *)
Definition lineRead (textLine : string) : bool :=
  Nat.ltb 1 (String.length textLine) && negb (Ascii.eqb (Std.front textLine) ";").

(** The line has no bracket and no equals sign. *)
Definition bareLine (textLine : string) : bool :=
  bool_decide (Std.index_of "[" textLine = None)
  && bool_decide (Std.index_of "]" textLine = None)
  && bool_decide (Std.index_of "=" textLine = None).

(** The lines of a TABLE block: the TABLE directive, one COLUMN directive
    per pair, and END. *)
Definition tableBlock (t tbl : string) (columns : list (string * string))
    : list string :=
  directive TABLE t tbl
  :: map (fun column : string * string => directive COLUMN (column.1) (column.2)) columns
  ++ [END].

(** The mappings of a TABLE block applied in order. *)
Definition mapBlock (t tbl : string) (columns : list (string * string))
    (w : sqlWriter) : sqlWriter :=
  foldl (fun w (column : string * string) =>
           Writer.setColumnMap t (column.1) (column.2) w)
    (Writer.setTableMap t tbl w) columns.

(** A COLUMN line of a block can be read: both names are plain and not
    empty, and the column is declared under the table. *)
Definition mappableColumn (w : sqlWriter) (t : string) (column : string * string)
    : Prop :=
  plainToken (column.1) = true /\ plainToken (column.2) = true /\
  column.1 <> "" /\ column.2 <> "" /\ is_Some (columnsOf w t !! column.1).

(** * Verified properties *)

(** C7: [verifyOperator] answers true on exactly the ten whitelisted
    operator strings, and false on every other string. *)
Theorem verifyOperator_whitelist :
  length operator_whitelist = 10 /\ NoDup operator_whitelist /\
  forall oper : string,
    (verifyOperator oper = true <-> oper ∈ operator_whitelist) /\
    (verifyOperator oper = false <-> oper ∉ operator_whitelist).
Proof.
  split; [reflexivity|]. split.
  { apply (bool_decide_unpack _). vm_compute. exact I. }
  assert (Hiff : forall oper, verifyOperator oper = true <-> oper ∈ operator_whitelist).
  { intros oper. unfold verifyOperator, operator_whitelist.
    rewrite !orb_true_iff, !String.eqb_eq.
    rewrite !elem_of_cons, elem_of_nil. tauto. }
  intros oper. split; [apply Hiff|].
  rewrite <- Hiff. destruct (verifyOperator oper); split; intros; congruence.
Qed.

Lemma verifyOperator_whitelist_witness :
  verifyOperator "BETWEEN" = true /\ verifyOperator "between" = false /\
  verifyOperator "==" = false.
Proof.
  split; [|split].
  - apply (proj1 (proj2 (proj2 verifyOperator_whitelist) "BETWEEN")).
    apply (bool_decide_unpack _). vm_compute. exact I.
  - apply (proj2 (proj2 (proj2 verifyOperator_whitelist) "between")).
    apply (bool_decide_unpack _). vm_compute. exact I.
  - apply (proj2 (proj2 (proj2 verifyOperator_whitelist) "==")).
    apply (bool_decide_unpack _). vm_compute. exact I.
Defined.

(** ** Strings *)

Lemma app_cons (c : ascii) (s t : string) : String c s +:+ t = String c (s +:+ t).
Proof. reflexivity. Qed.

Lemma app_nil_l (s : string) : "" +:+ s = s.
Proof. reflexivity. Qed.

Lemma app_nil_r (s : string) : s +:+ "" = s.
Proof. induction s as [|c s IH]; [reflexivity|]. rewrite app_cons, IH. reflexivity. Qed.

Lemma app_assoc (s t u : string) : (s +:+ t) +:+ u = s +:+ (t +:+ u).
Proof.
  induction s as [|c s IH]; [reflexivity|].
  rewrite !app_cons, IH. reflexivity.
Qed.

Lemma app_length (s t : string) :
  String.length (s +:+ t) = String.length s + String.length t.
Proof.
  induction s as [|c s IH]; [reflexivity|].
  rewrite app_cons. simpl. rewrite IH. reflexivity.
Qed.

Lemma empty_true (s : string) : Std.empty s = true <-> s = "".
Proof. destruct s; simpl; split; intros; congruence. Qed.

Lemma empty_false (s : string) : Std.empty s = false <-> s <> "".
Proof. destruct s; simpl; split; intros; congruence. Qed.

Lemma length_zero (s : string) : Nat.eqb (String.length s) 0 = Std.empty s.
Proof. destruct s; reflexivity. Qed.

(** ** The accumulating calls in closed form *)

(** Each loop of [push_back] appends its whole argument. *)
Ltac push_back_loop :=
  match goal with
  | |- forall w : sqlWriter, foldl ?f w ?l = _ =>
      induction l as [|x l IH]; intros w; simpl;
      [ destruct w; unfold set_fromFields, set_selectFields, set_joinFields,
          set_orderByFields, set_setFields, set_valueFields, set_whereFields;
        simpl; rewrite ?app_nil_r, ?List.app_nil_r; reflexivity
      | rewrite IH; unfold set_fromFields, set_selectFields, set_joinFields,
          set_orderByFields, set_setFields, set_valueFields, set_whereFields;
        simpl; rewrite <- ?List.app_assoc; reflexivity ]
  end.

Lemma from_list_eq fields : forall w,
  Writer.from_list fields w =
  set_fromFields (fromFields w ++ map (fun elem => (elem, "")) fields) w.
Proof. unfold Writer.from_list. push_back_loop. Qed.

Lemma push_selectFields fields : forall w,
  foldl (fun w elem => set_selectFields (selectFields w ++ [elem]) w) w fields =
  set_selectFields (selectFields w ++ fields) w.
Proof. push_back_loop. Qed.

Lemma push_selectFields_table t fields : forall w,
  foldl (fun w elem =>
           set_selectFields (selectFields w ++ [t +:+ "." +:+ elem]) w) w fields =
  set_selectFields (selectFields w ++ map (fun elem => t +:+ "." +:+ elem) fields) w.
Proof. push_back_loop. Qed.

Lemma join_eq fields : forall w,
  Writer.join fields w = set_joinFields (joinFields w ++ fields) w.
Proof. unfold Writer.join. push_back_loop. Qed.

Lemma orderBy_eq fields : forall w,
  Writer.orderBy fields w = set_orderByFields (orderByFields w ++ fields) w.
Proof. unfold Writer.orderBy. push_back_loop. Qed.

Lemma set_list_eq fields : forall w,
  Writer.set_list fields w = set_setFields (setFields w ++ fields) w.
Proof. unfold Writer.set_list. push_back_loop. Qed.

Lemma values_eq fields : forall w,
  Writer.values fields w = set_valueFields (valueFields w ++ fields) w.
Proof. unfold Writer.values. push_back_loop. Qed.

Lemma where_eq fields : forall w,
  Writer.where_ fields w = set_whereFields (whereFields w ++ fields) w.
Proof. unfold Writer.where_. push_back_loop. Qed.

(** ** The map functions touch the database map only *)

Lemma mapOnly_refl w : mapOnly w w.
Proof. exists (databaseMap w). destruct w; reflexivity. Qed.

Lemma mapOnly_trans w1 w2 w3 : mapOnly w1 w2 -> mapOnly w2 w3 -> mapOnly w1 w3.
Proof. intros [m ->] [m' ->]. exists m'. reflexivity. Qed.

Lemma mapOnly_set m w : mapOnly w (set_databaseMap m w).
Proof. exists m. reflexivity. Qed.

Lemma createTable_mapOnly t w : mapOnly w (Writer.createTable t w).2.
Proof.
  unfold Writer.createTable. destruct (databaseMap w !! t); simpl;
    auto using mapOnly_refl, mapOnly_set.
Qed.

Lemma createColumn_mapOnly t c w : mapOnly w (Writer.createColumn t c w).2.
Proof.
  unfold Writer.createColumn.
  destruct (databaseMap w !! t) as [table|]; simpl; [|apply mapOnly_refl].
  destruct (columnData table !! c); simpl; auto using mapOnly_refl, mapOnly_set.
Qed.

Lemma setTableMap_mapOnly t m w : mapOnly w (Writer.setTableMap t m w).
Proof.
  unfold Writer.setTableMap. destruct (databaseMap w !! t); simpl;
    auto using mapOnly_refl, mapOnly_set.
Qed.

Lemma setColumnMap_mapOnly t c m w : mapOnly w (Writer.setColumnMap t c m w).
Proof.
  unfold Writer.setColumnMap.
  destruct (databaseMap w !! t) as [table|]; simpl; [|apply mapOnly_refl].
  destruct (columnData table !! c); simpl; auto using mapOnly_refl, mapOnly_set.
Qed.

Lemma readLine_mapOnly ifn textLine st :
  mapOnly (Writer.writer st) (Writer.writer (stateOf (Writer.readLine ifn textLine st))).
Proof.
  unfold Writer.readLine.
  repeat case_match; simpl;
    auto using mapOnly_refl, setTableMap_mapOnly, setColumnMap_mapOnly.
Qed.

Lemma readLines_mapOnly ifn lines : forall st,
  mapOnly (Writer.writer st) (Writer.writer (stateOf (Writer.readLines ifn lines st))).
Proof.
  induction lines as [|textLine rest IH]; intros st; simpl; [apply mapOnly_refl|].
  pose proof (readLine_mapOnly ifn textLine st) as H.
  destruct (Writer.readLine ifn textLine st) as [st'|st' clog e]; simpl in *; [|exact H].
  eapply mapOnly_trans; [exact H|]. apply (IH (Writer.Build_mapLoop _ _ _ _)).
Qed.

Lemma readMapFile_mapOnly ifn file w :
  mapOnly w (match Writer.readMapFile ifn file w with
             | Loaded w' => w'
             | Aborted w' _ _ => w'
             end).
Proof.
  unfold Writer.readMapFile. destruct file as [content|]; [|apply mapOnly_refl].
  match goal with |- context [Writer.readLines ?i ?l ?st] =>
    pose proof (readLines_mapOnly i l st) as H;
    destruct (Writer.readLines i l st) end; exact H.
Qed.

(** ** Query kinds along a sequence of calls *)

Lemma mapOnly_queryType w w' : mapOnly w w' -> queryType w' = queryType w.
Proof. intros [m ->]. reflexivity. Qed.

Lemma perform_queryType c w :
  entersKind c = false ->
  queryType (perform w c) = queryType w \/ queryType (perform w c) = qt_none.
Proof.
  destruct c; simpl; try discriminate; intros _;
    rewrite ?from_list_eq, ?join_eq, ?orderBy_eq, ?set_list_eq, ?values_eq,
      ?where_eq;
    try (left; reflexivity); try (right; reflexivity); left;
    apply mapOnly_queryType;
    auto using createTable_mapOnly, createColumn_mapOnly, setTableMap_mapOnly,
      setColumnMap_mapOnly, readMapFile_mapOnly.
Qed.

Lemma run_snoc calls c w : run (calls ++ [c]) w = perform (run calls w) c.
Proof. unfold run. rewrite foldl_snoc. reflexivity. Qed.

Lemma run_active calls : forall d,
  queryType (run calls (Writer.create d)) <> qt_none ->
  Exists (fun c => entersKind c = true) calls.
Proof.
  induction calls as [|c calls IH] using rev_ind; intros d H.
  - exfalso. apply H. reflexivity.
  - rewrite run_snoc in H. apply Exists_app.
    destruct (entersKind c) eqn:Hc.
    + right. constructor. exact Hc.
    + left. apply (IH d). destruct (perform_queryType c (run calls (Writer.create d)) Hc)
        as [Heq|Heq]; congruence.
Qed.

(** C10: with no query kind — a fresh builder, or one just reset —
    [string()] reaches the code-error branch and returns no text, so a
    sequence of calls on a fresh builder that renders successfully contains
    a kind-entering call. *)
Theorem string_needs_kind :
  (forall w, queryType w = qt_none ->
     Writer.string w = Throw CCodeError /\ forall s, Writer.string w <> OK s) /\
  (forall d, Writer.string (Writer.create d) = Throw CCodeError) /\
  (forall w, Writer.string (Writer.resetQuery w) = Throw CCodeError) /\
  (forall d calls s,
     Writer.string (run calls (Writer.create d)) = OK s ->
     Exists (fun c => entersKind c = true) calls).
Proof.
  assert (Hnone : forall w, queryType w = qt_none -> Writer.string w = Throw CCodeError).
  { intros w H. unfold Writer.string. rewrite H. reflexivity. }
  split; [|split; [|split]].
  - intros w H. split; [auto|]. intros s. rewrite (Hnone w H). discriminate.
  - intros d. apply Hnone. reflexivity.
  - intros w. apply Hnone. reflexivity.
  - intros d calls s H. apply (run_active calls d). intros Hq.
    rewrite (Hnone _ Hq) in H. discriminate.
Qed.

Lemma string_needs_kind_witness :
  queryType (Writer.create MYSQL) = qt_none /\
  Writer.string (Writer.create MYSQL) = Throw CCodeError.
Proof.
  split; [reflexivity|].
  apply (proj1 string_needs_kind (Writer.create MYSQL)). reflexivity.
Defined.

(** ** Required clauses *)

Lemma createSelectQuery_no_projection w :
  ~ hasProjection w ->
  Writer.createSelectQuery w =
  Throw (CRuntimeError "MAPPED SQL WRITER: No Select fields in select clause."
           (Some E_SQLWRITER_NOSELECTFIELDS)).
Proof.
  intros H. unfold Writer.createSelectQuery.
  assert (Hs : selectFields w = []).
  { destruct (selectFields w) eqn:E; [reflexivity|]. exfalso. apply H. left.
    rewrite E. discriminate. }
  assert (Hc : countValue w = None).
  { destruct (countValue w) eqn:E; [|reflexivity]. exfalso. apply H. right. left.
    rewrite E. eauto. }
  assert (Hx : maxFields w = []).
  { destruct (maxFields w) eqn:E; [reflexivity|]. exfalso. apply H. right. right.
    left. rewrite E. discriminate. }
  assert (Hn : minFields w = []).
  { destruct (minFields w) eqn:E; [reflexivity|]. exfalso. apply H. right. right.
    right. rewrite E. discriminate. }
  rewrite Hs, Hc, Hx, Hn. reflexivity.
Qed.

Lemma createSelectQuery_no_from w :
  fromFields w = [] ->
  exists e, Writer.createSelectQuery w = Throw e /\ MissingRequiredClause e.
Proof.
  intros H. unfold Writer.createSelectQuery. rewrite H.
  destruct (negb (bool_decide (selectFields w = []))
            || bool_decide (is_Some (countValue w))
            || negb (bool_decide (maxFields w = []))
            || negb (bool_decide (minFields w = [])));
    eexists; (split; [reflexivity|exact I]).
Qed.

Lemma createSetClause_empty w :
  setFields w = [] ->
  Writer.createSetClause w =
  Throw (CRuntimeAssert "No Set fields defined for update query.").
Proof. intros H. unfold Writer.createSetClause. rewrite H. reflexivity. Qed.

(** C3: a Select with no projection source (no select field, no count
    expression, no min/max entry) or with no FROM source, and an Update with
    no SET field, make [string()] throw an error of the missing-clause kind;
    no text is returned. *)
Theorem string_missing_clause (w : sqlWriter) :
  (queryType w = qt_select -> ~ hasProjection w \/ fromFields w = [] ->
   exists e, Writer.string w = Throw e /\ MissingRequiredClause e) /\
  (queryType w = qt_update -> setFields w = [] ->
   exists e, Writer.string w = Throw e /\ MissingRequiredClause e).
Proof.
  split.
  - intros Hq [H|H]; unfold Writer.string; rewrite Hq.
    + rewrite (createSelectQuery_no_projection w H). eexists. split; [reflexivity|exact I].
    + apply createSelectQuery_no_from, H.
  - intros Hq H. unfold Writer.string, Writer.createUpdateQuery. rewrite Hq.
    rewrite (createSetClause_empty w H). eexists. split; reflexivity.
Qed.

Lemma string_missing_clause_witness :
  (exists e, Writer.string (Writer.select_fields ["a"] (Writer.create MYSQL)) = Throw e
             /\ MissingRequiredClause e) /\
  (exists e, Writer.string (Writer.from "t" "" (Writer.select (Writer.create MYSQL))) = Throw e
             /\ MissingRequiredClause e) /\
  (exists e, Writer.string (Writer.update "t" (Writer.create MYSQL)) = Throw e
             /\ MissingRequiredClause e).
Proof.
  split; [|split].
  - apply (proj1 (string_missing_clause _)); [reflexivity|]. right. reflexivity.
  - apply (proj1 (string_missing_clause _)); [reflexivity|]. left.
    intros [H|[[x H]|[H|H]]]; simpl in H; congruence.
  - apply (proj2 (string_missing_clause _)); reflexivity.
Defined.

(** ** LIMIT and OFFSET *)

Lemma uint64_max_value :
  Std.uint64_max = (2 ^ 64 - 1)%N /\
  Std.to_string_u64 Std.uint64_max = "18446744073709551615".
Proof. split; reflexivity. Qed.

(** C4: under the MySQL dialect the limit clause is [LIMIT <offset>, <limit> ]
    when the offset is set — the limit replaced by the greatest 64-bit
    unsigned value when unset —, [LIMIT <limit> ] when only the limit is
    set, and empty otherwise; [limit(10).offset(5)] gives [LIMIT 5, 10 ] and
    [limit(10)] alone gives [LIMIT 10 ]. *)
Theorem createLimitClause_mysql (w : sqlWriter) :
  dialect w = MYSQL ->
  Writer.createLimitClause w =
    OK (match offsetValue w, limitValue w with
        | Some offset, Some limit =>
            "LIMIT " +:+ Std.to_string_u64 offset +:+ ", "
              +:+ Std.to_string_u64 limit +:+ " "
        | Some offset, None =>
            "LIMIT " +:+ Std.to_string_u64 offset +:+ ", "
              +:+ "18446744073709551615" +:+ " "
        | None, Some limit => "LIMIT " +:+ Std.to_string_u64 limit +:+ " "
        | None, None => ""
        end) /\
  Writer.createLimitClause (Writer.offset 5 (Writer.limit 10 w)) = OK "LIMIT 5, 10 " /\
  (offsetValue w = None ->
   Writer.createLimitClause (Writer.limit 10 w) = OK "LIMIT 10 ").
Proof.
  intros Hd. split; [|split].
  - unfold Writer.createLimitClause. rewrite Hd.
    destruct (offsetValue w) as [offset|], (limitValue w) as [limit|];
      rewrite ?app_assoc; reflexivity.
  - unfold Writer.createLimitClause. simpl. rewrite Hd. reflexivity.
  - intros Ho. unfold Writer.createLimitClause. simpl. rewrite Hd, Ho. reflexivity.
Qed.

Lemma createLimitClause_mysql_witness :
  Writer.createLimitClause
    (Writer.offset 5 (Writer.limit 10
       (Writer.from "t" "" (Writer.select_fields ["a"] (Writer.create MYSQL)))))
    = OK "LIMIT 5, 10 " /\
  Writer.createLimitClause
    (Writer.limit 10
       (Writer.from "t" "" (Writer.select_fields ["a"] (Writer.create MYSQL))))
    = OK "LIMIT 10 ".
Proof.
  split.
  - apply (createLimitClause_mysql
             (Writer.from "t" "" (Writer.select_fields ["a"] (Writer.create MYSQL)))).
    reflexivity.
  - apply (createLimitClause_mysql
             (Writer.from "t" "" (Writer.select_fields ["a"] (Writer.create MYSQL))));
      reflexivity.
Defined.

(** ** WHERE on Update and Delete *)

Lemma createWhereClause_empty w :
  whereFields w = [] -> Writer.createWhereClause w = " WHERE ".
Proof. intros H. unfold Writer.createWhereClause. rewrite H. reflexivity. Qed.

(** C8, as stated, fails: an Update with no SET field and no predicate
    throws, so nothing ending in [ WHERE ] is rendered. *)
Lemma update_without_set_renders_nothing :
  queryType (Writer.update "t" (Writer.create MYSQL)) = qt_update /\
  whereFields (Writer.update "t" (Writer.create MYSQL)) = [] /\
  Writer.string (Writer.update "t" (Writer.create MYSQL)) =
    Throw (CRuntimeAssert "No Set fields defined for update query.") /\
  ~ exists text, Writer.string (Writer.update "t" (Writer.create MYSQL)) =
                 OK (text +:+ " WHERE ").
Proof.
  split; [reflexivity|]. split; [reflexivity|]. split; [reflexivity|].
  intros [text H]. discriminate H.
Qed.

(** C8, amended: with no predicate, a Delete renders
    [DELETE FROM <table> WHERE ], and an Update that has at least one SET
    field renders [UPDATE <table> <set clause> WHERE ]; both end in the
    bare keyword. *)
Theorem dangling_where (w : sqlWriter) :
  whereFields w = [] ->
  (queryType w = qt_delete ->
   Writer.string w = OK ("DELETE FROM " +:+ deleteTable w +:+ " WHERE ")) /\
  (queryType w = qt_update -> setFields w <> [] ->
   exists setClause,
     Writer.createSetClause w = OK setClause /\
     Writer.string w =
       OK ("UPDATE " +:+ updateTable w +:+ " " +:+ setClause +:+ " WHERE ")).
Proof.
  intros Hw. split.
  - intros Hq. unfold Writer.string, Writer.createDeleteQuery. rewrite Hq.
    rewrite (createWhereClause_empty w Hw). unfold Writer.getColumnMap.
    rewrite !app_assoc. reflexivity.
  - intros Hq Hs. unfold Writer.string, Writer.createUpdateQuery. rewrite Hq.
    rewrite (createWhereClause_empty w Hw).
    unfold Writer.createSetClause.
    destruct (setFields w) as [|p l] eqn:E; [congruence|].
    eexists. split; [reflexivity|].
    simpl. rewrite !app_assoc. reflexivity.
Qed.

Lemma dangling_where_witness :
  Writer.string (Writer.deleteFrom "t" (Writer.create MYSQL)) =
    OK "DELETE FROM t WHERE " /\
  exists setClause,
    Writer.createSetClause
      (Writer.set "a" (P_integer 1) (Writer.update "t" (Writer.create MYSQL))) =
      OK setClause /\
    Writer.string
      (Writer.set "a" (P_integer 1) (Writer.update "t" (Writer.create MYSQL))) =
      OK ("UPDATE " +:+ "t" +:+ " " +:+ setClause +:+ " WHERE ").
Proof.
  split.
  - apply (proj1 (dangling_where (Writer.deleteFrom "t" (Writer.create MYSQL)) eq_refl)).
    reflexivity.
  - apply (proj2 (dangling_where
                    (Writer.set "a" (P_integer 1) (Writer.update "t" (Writer.create MYSQL)))
                    eq_refl)).
    + reflexivity.
    + simpl. discriminate.
Defined.

(** ** Loops that join with a separator *)

Lemma joinWith_cons sep x l : joinWith sep (x :: l) = x +:+ joinTail sep l.
Proof.
  revert x. induction l as [|y l IH]; intros x.
  - simpl. rewrite app_nil_r. reflexivity.
  - change (joinWith sep (x :: y :: l)) with (x +:+ (sep +:+ joinWith sep (y :: l))).
    rewrite IH. reflexivity.
Qed.

Lemma joinTail_app sep l1 l2 :
  joinTail sep (l1 ++ l2) = joinTail sep l1 +:+ joinTail sep l2.
Proof.
  induction l1 as [|x l1 IH]; [reflexivity|].
  simpl. rewrite IH, !app_assoc. reflexivity.
Qed.

Section separator_loop.
Context {A : Type} (sep : string) (f : A -> string).
Variable step : string * bool -> A -> string * bool.
Hypothesis step_eq : forall returnValue first x,
  step (returnValue, first) x =
  ((if first then returnValue else returnValue +:+ sep) +:+ f x, false).

Lemma foldl_sep_later l : forall acc,
  foldl step (acc, false) l = (acc +:+ joinTail sep (map f l), false).
Proof.
  induction l as [|x l IH]; intros acc; simpl.
  - rewrite app_nil_r. reflexivity.
  - rewrite step_eq, IH, !app_assoc. reflexivity.
Qed.

Lemma foldl_sep l acc first :
  foldl step (acc, first) l =
  (acc +:+ joinFrom first sep (map f l), first && bool_decide (l = [])).
Proof.
  destruct first; [|apply foldl_sep_later].
  destruct l as [|x l].
  - simpl. rewrite app_nil_r. reflexivity.
  - cbn [foldl]. rewrite step_eq, foldl_sep_later. unfold joinFrom.
    change (map f (x :: l)) with (f x :: map f l).
    rewrite joinWith_cons, !app_assoc. reflexivity.
Qed.
End separator_loop.

(** ** Values as the formatter renders them *)

Lemma insertValueText_formatValue p : Writer.insertValueText p = formatValue p.
Proof.
  destruct p as [v|text|b|s|name]; try reflexivity.
  destruct name as [|c name]; [reflexivity|].
  destruct c as [[] [] [] [] [] [] [] []]; reflexivity.
Qed.

Lemma insertInto_row_text (row : parameterStorage) acc :
  fst (foldl (fun '((returnValue, firstValue) : string * bool)
                  (innerElement : parameter) =>
          let returnValue :=
            if firstValue then returnValue else returnValue +:+ ", " in
          (returnValue +:+ Writer.insertValueText innerElement, false))
         (acc, true) row) =
  acc +:+ joinWith ", " (map formatValue row).
Proof.
  rewrite (foldl_sep ", " formatValue).
  - reflexivity.
  - intros rv first x. rewrite insertValueText_formatValue. reflexivity.
Qed.

Lemma createInsertQuery_eq w :
  Writer.createInsertQuery w =
  insertStatement (insertTable w) (selectFields w) (valueFields w).
Proof.
  unfold Writer.createInsertQuery, insertStatement.
  rewrite (foldl_sep ", " id) by reflexivity.
  rewrite (foldl_sep ", "
             (fun row => "(" +:+ (joinWith ", " (map formatValue row) +:+ ")"))).
  - simpl. rewrite map_id, !app_assoc. reflexivity.
  - intros rv first row. rewrite insertInto_row_text, !app_assoc. reflexivity.
Qed.

(** ** An invariant of the interface: no kind, no select fields *)

Lemma mapOnly_selectFields w w' : mapOnly w w' -> selectFields w' = selectFields w.
Proof. intros [m ->]. reflexivity. Qed.

Lemma perform_enters c w : entersKind c = true -> queryType (perform w c) <> qt_none.
Proof.
  destruct c; simpl; try discriminate; intros _;
    unfold Writer.select_fields, Writer.select_table, Writer.insertInto_fields;
    rewrite ?push_selectFields, ?push_selectFields_table; simpl; discriminate.
Qed.

Lemma perform_selectFields c w :
  entersKind c = false ->
  (queryType (perform w c) = queryType w /\
   selectFields (perform w c) = selectFields w) \/
  (queryType (perform w c) = qt_none /\ selectFields (perform w c) = []).
Proof.
  destruct c; simpl; try discriminate; intros _;
    rewrite ?from_list_eq, ?join_eq, ?orderBy_eq, ?set_list_eq, ?values_eq,
      ?where_eq;
    try (left; split; reflexivity); try (right; split; reflexivity); left;
    (split; [apply mapOnly_queryType | apply mapOnly_selectFields]);
    auto using createTable_mapOnly, createColumn_mapOnly, setTableMap_mapOnly,
      setColumnMap_mapOnly, readMapFile_mapOnly.
Qed.

Lemma run_no_kind_no_fields calls : forall d,
  queryType (run calls (Writer.create d)) = qt_none ->
  selectFields (run calls (Writer.create d)) = [].
Proof.
  induction calls as [|c calls IH] using rev_ind; intros d H; [reflexivity|].
  rewrite run_snoc in *. destruct (entersKind c) eqn:Hc.
  - exfalso. exact (perform_enters c _ Hc H).
  - destruct (perform_selectFields c (run calls (Writer.create d)) Hc)
      as [[Hq Hs]|[Hq Hs]]; [|exact Hs].
    rewrite Hs. apply IH. congruence.
Qed.

Lemma restart_selectFields calls d :
  selectFields (Writer.restart (run calls (Writer.create d))) = [].
Proof.
  unfold Writer.restart.
  destruct (queryType (run calls (Writer.create d))) eqn:E; try reflexivity.
  apply run_no_kind_no_fields, E.
Qed.

Lemma mapOnly_insert w w' :
  mapOnly w w' ->
  queryType w' = queryType w /\ insertTable w' = insertTable w /\
  selectFields w' = selectFields w /\ valueFields w' = valueFields w.
Proof. intros [m ->]. repeat split. Qed.

Lemma perform_keeps c w :
  keepsStatement c = true ->
  queryType (perform w c) = queryType w /\
  insertTable (perform w c) = insertTable w /\
  selectFields (perform w c) = selectFields w /\
  valueFields (perform w c) = valueFields w ++ valuesOf [c].
Proof.
  destruct c; simpl; try discriminate; intros _;
    rewrite ?from_list_eq, ?join_eq, ?orderBy_eq, ?set_list_eq, ?values_eq,
      ?where_eq, ?List.app_nil_r;
    try (repeat split; reflexivity);
    apply mapOnly_insert;
    auto using createTable_mapOnly, createColumn_mapOnly, setTableMap_mapOnly,
      setColumnMap_mapOnly, readMapFile_mapOnly.
Qed.

Lemma valuesOf_app l1 l2 : valuesOf (l1 ++ l2) = valuesOf l1 ++ valuesOf l2.
Proof.
  induction l1 as [|c l1 IH]; [reflexivity|].
  destruct c; simpl; rewrite IH, <- ?List.app_assoc; reflexivity.
Qed.

Lemma run_keeps rest : forall w,
  Forall (fun c => keepsStatement c = true) rest ->
  queryType (run rest w) = queryType w /\
  insertTable (run rest w) = insertTable w /\
  selectFields (run rest w) = selectFields w /\
  valueFields (run rest w) = valueFields w ++ valuesOf rest.
Proof.
  induction rest as [|c rest IH] using rev_ind; intros w H.
  - simpl. rewrite List.app_nil_r. repeat split.
  - apply Forall_app in H as [Hrest Hc]. inversion Hc as [|? ? Hk _]; subst.
    destruct (IH w Hrest) as (Hq & Ht & Hs & Hv).
    destruct (perform_keeps c (run rest w) Hk) as (Hq' & Ht' & Hs' & Hv').
    rewrite run_snoc, valuesOf_app.
    rewrite Hq', Ht', Hs', Hv', Hq, Ht, Hs, Hv, List.app_assoc. repeat split.
Qed.

Lemma insertInto_no_fields t w : Writer.insertInto t w = Writer.insertInto_fields t [] w.
Proof. reflexivity. Qed.

(** C5: an Insert renders as
    [INSERT INTO <table>(<cols>) VALUES (<row1>), (<row2>), ...]: the
    columns are the field list given to [insertInto], in order; the rows
    come in the order of the [values()] calls; text is single-quoted and a
    bind placeholder gets a colon unless its name starts with a colon or a
    question mark.  The example of the specification renders exactly
    [INSERT INTO t(a, b) VALUES (1, 2), (3, 4)]. *)
Theorem insert_statement :
  (forall w, queryType w = qt_insert ->
     Writer.string w =
       OK (insertStatement (insertTable w) (selectFields w) (valueFields w))) /\
  (forall d calls t fields rest,
     Forall (fun c => keepsStatement c = true) rest ->
     let b := run calls (Writer.create d) in
     Writer.string (run rest (Writer.insertInto_fields t fields b)) =
       OK (insertStatement t fields
             (valueFields (Writer.restart b) ++ valuesOf rest)) /\
     Writer.string (run rest (Writer.insertInto t b)) =
       OK (insertStatement t []
             (valueFields (Writer.restart b) ++ valuesOf rest))) /\
  (forall d,
     Writer.string
       (Writer.values [[P_integer 1; P_integer 2]; [P_integer 3; P_integer 4]]
          (Writer.insertInto_fields "t" ["a"; "b"] (Writer.create d))) =
       OK "INSERT INTO t(a, b) VALUES (1, 2), (3, 4)").
Proof.
  assert (Hshape : forall w, queryType w = qt_insert ->
            Writer.string w =
            OK (insertStatement (insertTable w) (selectFields w) (valueFields w))).
  { intros w Hq. unfold Writer.string. rewrite Hq, createInsertQuery_eq. reflexivity. }
  assert (Hcalls : forall d calls t fields rest,
            Forall (fun c => keepsStatement c = true) rest ->
            Writer.string (run rest
                             (Writer.insertInto_fields t fields (run calls (Writer.create d)))) =
            OK (insertStatement t fields
                  (valueFields (Writer.restart (run calls (Writer.create d)))
                   ++ valuesOf rest))).
  { intros d calls t fields rest Hrest.
    set (b := run calls (Writer.create d)).
    assert (Hw0 : queryType (Writer.insertInto_fields t fields b) = qt_insert /\
                  insertTable (Writer.insertInto_fields t fields b) = t /\
                  selectFields (Writer.insertInto_fields t fields b) = fields /\
                  valueFields (Writer.insertInto_fields t fields b) =
                    valueFields (Writer.restart b)).
    { unfold Writer.insertInto_fields. rewrite push_selectFields. simpl.
      unfold b. rewrite restart_selectFields. repeat split. }
    destruct Hw0 as (Hq0 & Ht0 & Hs0 & Hv0).
    destruct (run_keeps rest (Writer.insertInto_fields t fields b) Hrest)
      as (Hq & Ht & Hs & Hv).
    rewrite Hshape by congruence.
    rewrite Ht, Hs, Hv, Ht0, Hs0, Hv0. reflexivity. }
  split; [exact Hshape|]. split.
  - intros d calls t fields rest Hrest b. split; [apply Hcalls, Hrest|].
    rewrite insertInto_no_fields. apply Hcalls, Hrest.
  - intros d. rewrite Hshape by reflexivity. reflexivity.
Qed.

Lemma insert_statement_witness :
  Writer.string
    (Writer.values [[P_string "x"; P_bindValue "n"]; [P_bindValue ":m"; P_bindValue "?"]]
       (Writer.insertInto_fields "t" ["a"; "b"] (Writer.create MYSQL))) =
  OK "INSERT INTO t(a, b) VALUES ('x', :n), (:m, ?)".
Proof.
  apply (proj1 insert_statement
           (Writer.values [[P_string "x"; P_bindValue "n"]; [P_bindValue ":m"; P_bindValue "?"]]
              (Writer.insertInto_fields "t" ["a"; "b"] (Writer.create MYSQL)))).
  reflexivity.
Defined.

(** ** The FROM clause *)

Lemma joinWith_snoc sep l x :
  joinWith sep (l ++ [x]) =
  joinWith sep l +:+ (if bool_decide (l = []) then "" else sep) +:+ x.
Proof.
  destruct l as [|y l]; [reflexivity|].
  change ((y :: l) ++ [x]) with (y :: (l ++ [x])).
  rewrite !joinWith_cons, joinTail_app. simpl.
  rewrite app_nil_r, !app_assoc. reflexivity.
Qed.

Lemma createFromClause_eq w :
  Writer.createFromClause w =
  " FROM " +:+ joinWith ", " (map fromEntry (fromFields w)).
Proof.
  unfold Writer.createFromClause.
  rewrite (foldl_sep ", " fromEntry); [reflexivity|].
  intros rv first [table alias]. unfold fromEntry. simpl.
  rewrite length_zero. destruct (Std.empty alias); simpl; [reflexivity|].
  rewrite !app_assoc. reflexivity.
Qed.

Lemma fromEntry_alias table alias : alias <> "" -> fromEntry (table, alias) = table +:+ " AS ".
Proof. intros H. unfold fromEntry. simpl. apply empty_false in H. rewrite H. reflexivity. Qed.

Lemma from_not_empty table alias w :
  bool_decide (fromFields (Writer.from table alias w) = []) = false.
Proof. apply bool_decide_eq_false. simpl. destruct (fromFields w); discriminate. Qed.

(** C9: a [from(table, alias)] call with a non-empty alias adds the table
    name followed by [ AS ] and then nothing, since the variable written
    after the keyword is never assigned; the alias text has no part in the
    output of [string()], which is the same for any other non-empty
    alias. *)
Theorem from_alias_not_rendered (w : sqlWriter) (table alias : string) :
  alias <> "" ->
  Writer.createFromClause (Writer.from table alias w) =
    Writer.createFromClause w
      +:+ (if bool_decide (fromFields w = []) then "" else ", ")
      +:+ table +:+ " AS " +:+ "" /\
  forall alias', alias' <> "" ->
    Writer.createFromClause (Writer.from table alias' w) =
      Writer.createFromClause (Writer.from table alias w) /\
    Writer.string (Writer.from table alias' w) =
      Writer.string (Writer.from table alias w).
Proof.
  intros Ha.
  assert (Hclause : forall a, a <> "" ->
            Writer.createFromClause (Writer.from table a w) =
            Writer.createFromClause w
              +:+ (if bool_decide (fromFields w = []) then "" else ", ")
              +:+ table +:+ " AS " +:+ "").
  { intros a Hne. rewrite !createFromClause_eq. simpl.
    rewrite map_app. simpl. rewrite joinWith_snoc, (fromEntry_alias table a Hne).
    rewrite app_nil_r, !app_assoc.
    destruct (fromFields w); reflexivity. }
  split; [exact (Hclause alias Ha)|].
  intros alias' Ha'.
  assert (Heq : Writer.createFromClause (Writer.from table alias' w) =
                Writer.createFromClause (Writer.from table alias w)).
  { rewrite (Hclause alias Ha), (Hclause alias' Ha'). reflexivity. }
  split; [exact Heq|].
  unfold Writer.string.
  change (queryType (Writer.from table alias' w)) with (queryType w).
  change (queryType (Writer.from table alias w)) with (queryType w).
  destruct (queryType w); try reflexivity.
  unfold Writer.createSelectQuery. rewrite Heq, !from_not_empty. reflexivity.
Qed.

Lemma from_alias_not_rendered_witness :
  Writer.string (Writer.from "tbl_name" "n" (Writer.select_fields ["a"] (Writer.create POSTGRE))) =
    OK "SELECT a FROM tbl_name AS " /\
  Writer.string (Writer.from "tbl_name" "other" (Writer.select_fields ["a"] (Writer.create POSTGRE))) =
    Writer.string (Writer.from "tbl_name" "n" (Writer.select_fields ["a"] (Writer.create POSTGRE))).
Proof.
  split; [reflexivity|].
  apply (from_alias_not_rendered (Writer.select_fields ["a"] (Writer.create POSTGRE))
           "tbl_name" "n"); discriminate.
Defined.

(** ** Starting a statement over *)

(** What [resetQuery] leaves: every clause field empty and no query kind;
    the delete table, the dialect and the database map are not assigned. *)
Lemma resetQuery_fields w :
  let w' := Writer.resetQuery w in
  queryType w' = qt_none /\ selectFields w' = [] /\ fromFields w' = [] /\
  joinFields w' = [] /\ whereFields w' = [] /\ orderByFields w' = [] /\
  setFields w' = [] /\ valueFields w' = [] /\ insertTable w' = "" /\
  updateTable w' = "" /\ limitValue w' = None /\ offsetValue w' = None /\
  countValue w' = None /\ distinct_ w' = false /\ maxFields w' = [] /\
  minFields w' = [] /\
  deleteTable w' = deleteTable w /\ dialect w' = dialect w /\
  databaseMap w' = databaseMap w.
Proof. repeat split. Qed.

Lemma restart_active w :
  queryType w <> qt_none -> Writer.restart w = Writer.resetQuery w.
Proof. intros H. unfold Writer.restart. destruct (queryType w); congruence. Qed.

(** C1 is not met by the code: [resetQuery] has no assignment to the delete
    table, so the table of an earlier [deleteFrom] is still stored after any
    kind-entering call that does not set it anew. *)
Theorem deleteTable_survives (w : sqlWriter) :
  queryType w <> qt_none ->
  deleteTable (Writer.select w) = deleteTable w /\
  (forall fields, deleteTable (Writer.select_fields fields w) = deleteTable w) /\
  (forall t fields, deleteTable (Writer.select_table t fields w) = deleteTable w) /\
  (forall t, deleteTable (Writer.insertInto t w) = deleteTable w) /\
  (forall t fields, deleteTable (Writer.insertInto_fields t fields w) = deleteTable w) /\
  (forall t, deleteTable (Writer.update t w) = deleteTable w) /\
  (forall t, deleteTable (Writer.upsert t w) = deleteTable w).
Proof.
  intros H.
  unfold Writer.select_fields, Writer.select_table, Writer.insertInto_fields,
    Writer.select, Writer.insertInto, Writer.update, Writer.upsert.
  rewrite (restart_active w H).
  repeat split; intros;
    rewrite ?push_selectFields, ?push_selectFields_table; reflexivity.
Qed.

Lemma deleteTable_survives_witness :
  queryType (Writer.deleteFrom "old" (Writer.create MYSQL)) = qt_delete /\
  deleteTable (Writer.select (Writer.deleteFrom "old" (Writer.create MYSQL))) = "old".
Proof.
  split; [reflexivity|].
  apply (proj1 (deleteTable_survives (Writer.deleteFrom "old" (Writer.create MYSQL))
                  ltac:(discriminate))).
Defined.

(** ** Select under the Microsoft dialect *)

Lemma projection_test w :
  negb (bool_decide (selectFields w = [])) || bool_decide (is_Some (countValue w))
  || negb (bool_decide (maxFields w = [])) || negb (bool_decide (minFields w = []))
  = true <-> hasProjection w.
Proof.
  unfold hasProjection.
  rewrite !orb_true_iff, !negb_true_iff, !bool_decide_eq_false, bool_decide_eq_true.
  tauto.
Qed.

Lemma aggregate_step (name rv : string) (first : bool) (element : string * string) :
  (let returnValue := if first then rv else rv +:+ ", " in
   let returnValue := returnValue +:+ ((name +:+ element.1) +:+ ")") in
   let returnValue :=
     if negb (Std.empty (element.2))
     then returnValue +:+ (" AS " +:+ element.2)
     else returnValue in
   (returnValue, false)) =
  ((if first then rv else rv +:+ ", ") +:+ aggregateEntry name element, false).
Proof.
  unfold aggregateEntry. cbv zeta. destruct (Std.empty (element.2)); simpl.
  - rewrite app_nil_r, !app_assoc. reflexivity.
  - rewrite !app_assoc. reflexivity.
Qed.

Lemma createSelectClause_top w n :
  dialect w = MICROSOFT -> limitValue w = Some n ->
  exists rest,
    Writer.createSelectClause w =
    "SELECT TOP " +:+ Std.to_string_u64 n +:+ " " +:+ rest.
Proof.
  intros Hd Hl. unfold Writer.createSelectClause. rewrite Hd, Hl.
  rewrite (foldl_sep ", " id) by reflexivity.
  destruct (countValue w) as [countExpression|];
    [destruct (String.eqb countExpression "*")|];
    destruct (negb (bool_decide (maxFields w = []))); cbv beta iota;
    rewrite ?(foldl_sep ", " (aggregateEntry "MAX("))
      by (intros; apply (aggregate_step "MAX("));
    destruct (negb (bool_decide (minFields w = []))); cbv beta iota;
    rewrite ?(foldl_sep ", " (aggregateEntry "MIN("))
      by (intros; apply (aggregate_step "MIN("));
    destruct (distinct_ w), (bool_decide (selectFields w = []));
    cbn [andb]; eexists; rewrite !app_assoc; reflexivity.
Qed.

(** C2 is not met by the code: under the Microsoft dialect the SELECT clause
    does get its [TOP n ], but [createSelectQuery] then asks for the limit
    clause, which knows MySQL and PostgreSQL only: [string()] throws the
    unknown-dialect error and returns no text. *)
Theorem select_microsoft_raises (w : sqlWriter) :
  dialect w = MICROSOFT -> queryType w = qt_select ->
  (forall n, limitValue w = Some n ->
     exists rest,
       Writer.createSelectClause w =
       "SELECT TOP " +:+ Std.to_string_u64 n +:+ " " +:+ rest) /\
  (exists e, Writer.string w = Throw e) /\
  (hasProjection w -> fromFields w <> [] ->
   Writer.string w =
     Throw (CRuntimeError "Unknown dialect" (Some E_SQLWRITER_UNKNOWNDIALECT))).
Proof.
  intros Hd Hq.
  assert (Hlimit : Writer.createLimitClause w =
            Throw (CRuntimeError "Unknown dialect" (Some E_SQLWRITER_UNKNOWNDIALECT))).
  { unfold Writer.createLimitClause. rewrite Hd. reflexivity. }
  split; [intros n Hn; exact (createSelectClause_top w n Hd Hn)|].
  unfold Writer.string, Writer.createSelectQuery. rewrite Hq, Hlimit. split.
  - destruct (negb (bool_decide (selectFields w = []))
              || bool_decide (is_Some (countValue w))
              || negb (bool_decide (maxFields w = []))
              || negb (bool_decide (minFields w = [])));
      [|eexists; reflexivity].
    destruct (negb (bool_decide (fromFields w = []))); eexists; reflexivity.
  - intros Hp Hf. apply projection_test in Hp. rewrite Hp.
    rewrite (bool_decide_eq_false_2 _ Hf). reflexivity.
Qed.

Lemma select_microsoft_raises_witness :
  Writer.createSelectClause
    (Writer.limit 10 (Writer.from "t" "" (Writer.select_fields ["a"] (Writer.create MICROSOFT)))) =
    "SELECT TOP 10 a" /\
  Writer.string
    (Writer.limit 10 (Writer.from "t" "" (Writer.select_fields ["a"] (Writer.create MICROSOFT)))) =
    Throw (CRuntimeError "Unknown dialect" (Some E_SQLWRITER_UNKNOWNDIALECT)).
Proof.
  split; [reflexivity|].
  apply (select_microsoft_raises
           (Writer.limit 10 (Writer.from "t" "" (Writer.select_fields ["a"] (Writer.create MICROSOFT))))
           eq_refl eq_refl).
  - left. discriminate.
  - discriminate.
Defined.

(** ** Scanning a directive line *)

Lemma index_of_app_absent ch s r :
  Std.index_of ch s = None ->
  Std.index_of ch (s +:+ r) = (fun i => String.length s + i) <$> Std.index_of ch r.
Proof.
  induction s as [|c s IH]; intros H.
  - rewrite app_nil_l. destruct (Std.index_of ch r); reflexivity.
  - rewrite app_cons. simpl in *. destruct (Ascii.eqb c ch); [discriminate|].
    destruct (Std.index_of ch s); [discriminate|].
    rewrite (IH eq_refl). destruct (Std.index_of ch r); reflexivity.
Qed.

Lemma index_of_app_absent_both ch s r :
  Std.index_of ch s = None -> Std.index_of ch r = None ->
  Std.index_of ch (s +:+ r) = None.
Proof. intros Hs Hr. rewrite (index_of_app_absent ch s r Hs), Hr. reflexivity. Qed.

Lemma index_of_here ch r : Std.index_of ch (String ch r) = Some 0.
Proof. simpl. rewrite Ascii.eqb_refl. reflexivity. Qed.

Lemma drop_app p r : Std.drop (String.length p) (p +:+ r) = r.
Proof. induction p as [|c p IH]; [reflexivity|]. rewrite app_cons. simpl. exact IH. Qed.

Lemma take_app p r : Std.take (String.length p) (p +:+ r) = p.
Proof.
  induction p as [|c p IH]; [reflexivity|]. rewrite app_cons. simpl.
  rewrite IH. reflexivity.
Qed.

(** The first [ch] at or after the end of [p], when [q] has none. *)
Lemma find_first_of_split p q ch r :
  Std.index_of ch q = None ->
  Std.find_first_of (p +:+ (q +:+ String ch r)) ch (Std.idx (String.length p)) =
  Std.idx (String.length p + String.length q).
Proof.
  intros Hq. unfold Std.find_first_of. rewrite drop_app.
  rewrite (index_of_app_absent ch q _ Hq), index_of_here. simpl.
  rewrite Nat.add_0_r. reflexivity.
Qed.

Lemma find_first_of_start q ch r :
  Std.index_of ch q = None ->
  Std.find_first_of (q +:+ String ch r) ch (Std.idx 0) = Std.idx (String.length q).
Proof. intros Hq. exact (find_first_of_split "" q ch r Hq). Qed.

Lemma plainToken_absent s :
  plainToken s = true ->
  Std.index_of "[" s = None /\ Std.index_of "]" s = None /\
  Std.index_of "=" s = None /\ Std.index_of "010" s = None.
Proof.
  induction s as [|c s IH]; [intros; repeat split|].
  simpl. rewrite !andb_true_iff, !negb_true_iff. intros [[[[H1 H2] H3] H4] H5].
  destruct (IH H5) as (I1 & I2 & I3 & I4).
  rewrite H1, H2, H3, H4, I1, I2, I3, I4. repeat split.
Qed.

Lemma getlines_line l rest :
  Std.index_of "010" l = None ->
  Std.getlines (l +:+ String "010" rest) = l :: Std.getlines rest.
Proof.
  induction l as [|c l IH]; intros H.
  - reflexivity.
  - rewrite app_cons. simpl in *.
    destruct (Ascii.eqb c "010"); [discriminate|].
    rewrite IH; [reflexivity|]. destruct (Std.index_of "010" l); [discriminate|reflexivity].
Qed.

Ltac string_length :=
  rewrite ?app_length; cbn [String.length]; try (f_equal; lia); try lia.

Ltac absent_in_app :=
  repeat (apply index_of_app_absent_both); try assumption; try reflexivity.

Lemma scan_directive cmd a b :
  Std.index_of " " cmd = None -> Std.index_of "=" cmd = None ->
  Std.index_of "[" cmd = None -> Std.index_of "]" cmd = None ->
  plainToken a = true -> plainToken b = true ->
  let textLine := directive cmd a b in
  let n := String.length cmd in
  Std.find_first_of textLine " " (Std.idx 0) = Std.idx n /\
  Std.find_first_of textLine "=" (Std.idx 0) = Std.idx (n + 3 + String.length a) /\
  Std.find_first_of textLine "[" (Std.idx 0) = Std.idx (n + 1) /\
  Std.find_first_of textLine "]" (Std.idx 0) = Std.idx (n + 2 + String.length a) /\
  Std.find_first_of textLine "[" (Std.idx (n + 3 + String.length a)) =
    Std.idx (n + 4 + String.length a) /\
  Std.find_first_of textLine "]" (Std.idx (n + 3 + String.length a)) =
    Std.idx (n + 5 + String.length a + String.length b) /\
  Std.substr0 textLine (Std.idx n) = cmd /\
  Std.substr_between textLine (Std.idx (n + 1)) (Std.idx (n + 2 + String.length a)) = a /\
  Std.substr_between textLine (Std.idx (n + 4 + String.length a))
    (Std.idx (n + 5 + String.length a + String.length b)) = b.
Proof.
  intros Hsp Heq Hop Hcl Ha Hb textLine n.
  destruct (plainToken_absent a Ha) as (Ha1 & Ha2 & Ha3 & _).
  destruct (plainToken_absent b Hb) as (Hb1 & Hb2 & Hb3 & _).
  assert (Hlen : String.length (cmd +:+ " [" +:+ a +:+ "]") = n + 3 + String.length a)
    by (subst n; string_length).
  repeat split.
  - apply (find_first_of_start cmd " " _ Hsp).
  - replace textLine with ((cmd +:+ " [" +:+ a +:+ "]") +:+ String "=" ("[" +:+ b +:+ "]"))
      by (subst textLine; unfold directive; rewrite !app_assoc; reflexivity).
    rewrite find_first_of_start by absent_in_app. rewrite Hlen. reflexivity.
  - replace textLine with ((cmd +:+ " ") +:+ String "[" (a +:+ "]=[" +:+ b +:+ "]"))
      by (subst textLine; unfold directive; rewrite !app_assoc; reflexivity).
    rewrite find_first_of_start by absent_in_app. subst n. string_length.
  - replace textLine with ((cmd +:+ " [" +:+ a) +:+ String "]" ("=[" +:+ b +:+ "]"))
      by (subst textLine; unfold directive; rewrite !app_assoc; reflexivity).
    rewrite find_first_of_start by absent_in_app. subst n. string_length.
  - replace textLine with ((cmd +:+ " [" +:+ a +:+ "]") +:+ ("=" +:+ String "[" (b +:+ "]")))
      by (subst textLine; unfold directive; rewrite !app_assoc; reflexivity).
    rewrite <- Hlen. rewrite find_first_of_split by reflexivity.
    rewrite Hlen. subst n. string_length.
  - replace textLine with ((cmd +:+ " [" +:+ a +:+ "]") +:+ (("=[" +:+ b) +:+ String "]" ""))
      by (subst textLine; unfold directive; rewrite !app_assoc; reflexivity).
    rewrite <- Hlen. rewrite find_first_of_split by absent_in_app.
    rewrite Hlen. subst n. string_length.
  - apply take_app.
  - unfold Std.substr_between.
    replace (n + 2 + String.length a - (n + 1) - 1) with (String.length a) by lia.
    replace textLine with ((cmd +:+ " [") +:+ (a +:+ "]=[" +:+ b +:+ "]"))
      by (subst textLine; unfold directive; rewrite !app_assoc; reflexivity).
    replace (n + 1 + 1) with (String.length (cmd +:+ " [")) by (subst n; string_length).
    rewrite drop_app. apply take_app.
  - unfold Std.substr_between.
    replace (n + 5 + String.length a + String.length b - (n + 4 + String.length a) - 1)
      with (String.length b) by lia.
    replace textLine with ((cmd +:+ " [" +:+ a +:+ "]=[") +:+ (b +:+ "]"))
      by (subst textLine; unfold directive; rewrite !app_assoc; reflexivity).
    replace (n + 4 + String.length a + 1)
      with (String.length (cmd +:+ " [" +:+ a +:+ "]=[")) by (subst n; string_length).
    rewrite drop_app. apply take_app.
Qed.

(** ** Reading directive lines *)

Ltac scan_line cmd a b :=
  destruct (scan_directive cmd a b) as (S1 & S2 & S3 & S4 & S5 & S6 & S7 & S8 & S9);
    try reflexivity; try assumption;
  unfold Writer.readLine;
  replace (Nat.ltb 1 (String.length (directive cmd a b))
           && negb (Ascii.eqb (Std.front (directive cmd a b)) ";")) with true
    by reflexivity;
  cbv zeta;
  rewrite S2, S1, S3, S4, S5, S6, S7, S8, S9;
  replace (Std.ltb (Std.idx (String.length cmd + 1))
             (Std.idx (String.length cmd + 2 + String.length a))) with true
    by (symmetry; apply Nat.ltb_lt; lia);
  replace (Std.ltb (Std.idx (String.length cmd + 4 + String.length a))
             (Std.idx (String.length cmd + 5 + String.length a + String.length b)))
    with true by (symmetry; apply Nat.ltb_lt; lia);
  change (Std.trim cmd) with cmd;
  cbn [negb andb Writer.currentTable Writer.writer Writer.szToken1 Writer.lineNumber].

Lemma readLine_TABLE ifn a b st table :
  plainToken a = true -> plainToken b = true -> a <> "" -> b <> "" ->
  Writer.currentTable st = "" ->
  databaseMap (Writer.writer st) !! a = Some table ->
  Writer.readLine ifn (directive TABLE a b) st =
  Writer.Continue
    {| Writer.writer := Writer.setTableMap a b (Writer.writer st);
       Writer.currentTable := a; Writer.szToken1 := a;
       Writer.lineNumber := Writer.lineNumber st |}.
Proof.
  intros Ha Hb Hane Hbne Hcur Htab.
  scan_line TABLE a b.
  change (String.eqb TABLE COLUMN) with false.
  change (String.eqb TABLE TABLE) with true.
  cbn iota.
  rewrite Hcur, Htab.
  rewrite (proj2 (empty_false a) Hane), (proj2 (empty_false b) Hbne).
  reflexivity.
Qed.

Lemma readLine_COLUMN ifn a b st column :
  plainToken a = true -> plainToken b = true -> a <> "" -> b <> "" ->
  Writer.currentTable st <> "" ->
  columnsOf (Writer.writer st) (Writer.currentTable st) !! a = Some column ->
  Writer.readLine ifn (directive COLUMN a b) st =
  Writer.Continue
    {| Writer.writer :=
         Writer.setColumnMap (Writer.currentTable st) a b (Writer.writer st);
       Writer.currentTable := Writer.currentTable st; Writer.szToken1 := a;
       Writer.lineNumber := Writer.lineNumber st |}.
Proof.
  intros Ha Hb Hane Hbne Hcur Hcol.
  scan_line COLUMN a b.
  change (String.eqb COLUMN COLUMN) with true.
  cbn iota.
  rewrite Hcol.
  rewrite (proj2 (empty_false _) Hcur).
  rewrite (proj2 (empty_false a) Hane), (proj2 (empty_false b) Hbne).
  reflexivity.
Qed.

Lemma readLine_END ifn st :
  Writer.readLine ifn END st =
  Writer.Continue
    {| Writer.writer := Writer.writer st; Writer.currentTable := "";
       Writer.szToken1 := Writer.szToken1 st;
       Writer.lineNumber := Writer.lineNumber st |}.
Proof. reflexivity. Qed.

Lemma trim_left_length s : String.length (Std.trim_left s) <= String.length s.
Proof.
  induction s as [|c s IH]; simpl; [lia|]. destruct (Std.isspace c); simpl; lia.
Qed.

Lemma trim_right_length s : String.length (Std.trim_right s) <= String.length s.
Proof.
  induction s as [|c s IH]; simpl; [lia|].
  destruct (Std.trim_right s); [destruct (Std.isspace c)|]; simpl in *; lia.
Qed.

Lemma trim_front c s :
  Std.isspace c = false -> Std.front (Std.trim (String c s)) = c.
Proof.
  intros H. unfold Std.trim. simpl. rewrite H. simpl.
  destruct (Std.trim_right s); [rewrite H|]; reflexivity.
Qed.

Lemma substr0_length s p : String.length (Std.substr0 s p) <= String.length s.
Proof.
  destruct p as [k|]; simpl; [|lia]. revert s.
  induction k as [|k IH]; intros [|c s]; simpl; try lia. specialize (IH s). lia.
Qed.

Lemma substr0_front s p :
  Std.substr0 s p <> "" -> Std.front (Std.substr0 s p) = Std.front s.
Proof.
  destruct p as [k|]; simpl; [|reflexivity].
  destruct k, s; simpl; congruence.
Qed.

(** A line whose command word is [COLUMN] is not skipped. *)
Lemma column_line_read textLine :
  commandOf textLine = COLUMN ->
  Nat.ltb 1 (String.length textLine)
  && negb (Ascii.eqb (Std.front textLine) ";") = true.
Proof.
  unfold commandOf. intros H.
  set (p := Std.substr0 textLine (Std.find_first_of textLine " " (Std.idx 0))) in *.
  assert (Hlen : 6 <= String.length textLine).
  { pose proof (substr0_length textLine (Std.find_first_of textLine " " (Std.idx 0))).
    pose proof (trim_left_length p). pose proof (trim_right_length (Std.trim_left p)).
    fold p in H0. unfold Std.trim in H. rewrite H in H2. simpl in H2. lia. }
  apply andb_true_intro. split; [apply Nat.ltb_lt; lia|].
  apply negb_true_iff, Ascii.eqb_neq. intros Hfront.
  assert (Hp : p <> "") by (intros E; rewrite E in H; discriminate H).
  pose proof (substr0_front textLine _ Hp) as Hf. fold p in Hf.
  destruct p as [|c p']; [congruence|]. simpl in Hf.
  rewrite Hfront in Hf. subst c.
  pose proof (trim_front ";" p' eq_refl) as Ht. rewrite H in Ht. discriminate Ht.
Qed.

Lemma readLine_COLUMN_no_table ifn textLine st :
  commandOf textLine = COLUMN -> Writer.currentTable st = "" ->
  exists st',
    Writer.writer st' = Writer.writer st /\
    Writer.readLine ifn textLine st =
    if hasToken1 textLine then
      Writer.Raise st'
        [clog_file ifn;
         clog_line "Syntax command on line: " (Writer.lineNumber st)
           " - COLUMN directive found, but no TABLE directive in force."]
        Writer.syntaxError
    else
      Writer.Raise st' []
        (CRuntimeError
           (((("Error in SQL map file:" +:+ ifn) +:+ "Syntax error on line: ")
             +:+ Std.to_string_int (Writer.lineNumber st))
            +:+ " - Needs at least one token.") None).
Proof.
  intros Hcmd Hcur. unfold Writer.readLine.
  rewrite (column_line_read textLine Hcmd). cbv zeta.
  change (Std.trim (Std.substr0 textLine (Std.find_first_of textLine " " (Std.idx 0))))
    with (commandOf textLine).
  change (Std.ltb (Std.find_first_of textLine "[" (Std.idx 0))
            (Std.find_first_of textLine "]" (Std.idx 0))) with (hasToken1 textLine).
  rewrite Hcmd. destruct (hasToken1 textLine).
  - change (String.eqb COLUMN END) with false. change (String.eqb COLUMN COLUMN) with true.
    cbn [negb andb Writer.currentTable Writer.writer Writer.szToken1 Writer.lineNumber].
    rewrite Hcur. cbn [Std.empty]. eexists. split; [|reflexivity]. reflexivity.
  - change (String.eqb COLUMN END) with false. cbn [negb andb].
    exists st. split; reflexivity.
Qed.

Lemma readLine_lineNumber ifn textLine st st' :
  Writer.readLine ifn textLine st = Writer.Continue st' ->
  Writer.lineNumber st' = Writer.lineNumber st.
Proof.
  unfold Writer.readLine. intros H.
  repeat case_match; try discriminate; injection H as <-; reflexivity.
Qed.

Lemma readLines_lineNumber ifn lines : forall st st',
  Writer.readLines ifn lines st = Writer.Continue st' ->
  Writer.lineNumber st' = (Writer.lineNumber st + Z.of_nat (length lines))%Z.
Proof.
  induction lines as [|textLine rest IH]; intros st st' H; simpl in H.
  - injection H as <-. simpl. lia.
  - destruct (Writer.readLine ifn textLine st) as [st1|] eqn:E; [|discriminate].
    apply readLine_lineNumber in E. apply IH in H. simpl in H.
    rewrite H, E. simpl length. lia.
Qed.

Lemma readLines_app ifn l1 l2 : forall st,
  Writer.readLines ifn (l1 ++ l2) st =
  match Writer.readLines ifn l1 st with
  | Writer.Continue st' => Writer.readLines ifn l2 st'
  | Writer.Raise st' clog e => Writer.Raise st' clog e
  end.
Proof.
  induction l1 as [|textLine l1 IH]; intros st; simpl; [reflexivity|].
  destruct (Writer.readLine ifn textLine st); [apply IH|reflexivity].
Qed.

(** ** Loading a map file *)

Lemma readMapFile_eq ifn content w :
  Writer.readMapFile ifn (Some content) w =
  match Writer.readLines ifn (Std.getlines content) (firstLine w) with
  | Writer.Continue st => Loaded (Writer.writer st)
  | Writer.Raise st clog e => Aborted (Writer.writer st) clog e
  end.
Proof. reflexivity. Qed.

Lemma sequence_lines t tbl c col :
  plainToken t = true -> plainToken tbl = true ->
  plainToken c = true -> plainToken col = true ->
  Std.getlines (directive TABLE t tbl +:+ LF +:+ directive COLUMN c col +:+ LF
                +:+ END +:+ LF) =
  [directive TABLE t tbl; directive COLUMN c col; END; ""].
Proof.
  intros Ht Htbl Hc Hcol.
  destruct (plainToken_absent t Ht) as (_ & _ & _ & Ht').
  destruct (plainToken_absent tbl Htbl) as (_ & _ & _ & Htbl').
  destruct (plainToken_absent c Hc) as (_ & _ & _ & Hc').
  destruct (plainToken_absent col Hcol) as (_ & _ & _ & Hcol').
  change (Std.getlines
            (directive TABLE t tbl
             +:+ String "010" (directive COLUMN c col +:+ String "010" (END +:+ LF))) =
          [directive TABLE t tbl; directive COLUMN c col; END; ""]).
  rewrite getlines_line by (unfold directive; absent_in_app).
  rewrite getlines_line by (unfold directive; absent_in_app).
  reflexivity.
Qed.

(** C6: a COLUMN directive met while no TABLE scope is open aborts the load
    with a syntax error that names the file and the 1-based number of the
    line — on [std::clog] next to the syntax-error exception, or, when the
    line has no bracketed token, in the text of the exception.  The sequence
    [TABLE [t]=[tbl]], [COLUMN [c]=[col]], [END], with [t] and [c] declared
    beforehand, loads without error and stores [tbl] and [col] as the mapped
    names of [t] and [c]. *)
Theorem readMapFile_column_scope :
  (forall ifn content w before textLine after st,
     Std.getlines content = before ++ textLine :: after ->
     Writer.readLines ifn before (firstLine w) = Writer.Continue st ->
     Writer.currentTable st = "" ->
     commandOf textLine = COLUMN ->
     Writer.readMapFile ifn (Some content) w =
       if hasToken1 textLine then
         Aborted (Writer.writer st)
           [clog_file ifn;
            clog_line "Syntax command on line: " (1 + Z.of_nat (length before))
              " - COLUMN directive found, but no TABLE directive in force."]
           (CRuntimeError "MAPPED SQL WRITER: Syntax Error."
              (Some E_SQLWRITER_SYNTAXERROR))
       else
         Aborted (Writer.writer st) []
           (CRuntimeError
              (((("Error in SQL map file:" +:+ ifn) +:+ "Syntax error on line: ")
                +:+ Std.to_string_int (1 + Z.of_nat (length before)))
               +:+ " - Needs at least one token.") None)) /\
  (forall ifn w t tbl c col table column,
     plainToken t = true -> plainToken tbl = true ->
     plainToken c = true -> plainToken col = true ->
     t <> "" -> tbl <> "" -> c <> "" -> col <> "" ->
     databaseMap w !! t = Some table ->
     columnData table !! c = Some column ->
     exists w',
       Writer.readMapFile ifn
         (Some (directive TABLE t tbl +:+ LF +:+ directive COLUMN c col +:+ LF
                +:+ END +:+ LF)) w = Loaded w' /\
       mapOnly w w' /\
       databaseMap w' !! t =
         Some {| tableName := (t, tbl);
                 columnData := <[c := {| columnName := (c, col) |}]> (columnData table) |}).
Proof.
  split.
  - intros ifn content w before textLine after st Hlines Hbefore Hcur Hcmd.
    rewrite readMapFile_eq, Hlines, readLines_app, Hbefore.
    pose proof (readLines_lineNumber ifn before _ _ Hbefore) as Hn.
    change (Writer.lineNumber (firstLine w)) with 1%Z in Hn.
    cbn [Writer.readLines].
    destruct (readLine_COLUMN_no_table ifn textLine st Hcmd Hcur) as (st' & Hw & ->).
    rewrite <- Hn, <- Hw. destruct (hasToken1 textLine); reflexivity.
  - intros ifn w t tbl c col table column Ht Htbl Hc Hcol Hte Htble Hce Hcole Htab Hcl.
    rewrite readMapFile_eq, sequence_lines by assumption.
    cbn [Writer.readLines].
    rewrite (readLine_TABLE ifn t tbl (firstLine w) table)
      by first [assumption | reflexivity | exact Htab].
    unfold firstLine.
    cbn [Writer.currentTable Writer.writer Writer.szToken1 Writer.lineNumber].
    assert (Hmap : databaseMap (Writer.setTableMap t tbl w) !! t =
                   Some {| tableName := (t, tbl); columnData := columnData table |}).
    { unfold Writer.setTableMap. rewrite Htab. simpl. apply lookup_insert_eq. }
    erewrite readLine_COLUMN; try eassumption;
      [|cbn [Writer.currentTable Writer.writer]; unfold columnsOf;
        rewrite Hmap; exact Hcl].
    cbn [Writer.currentTable Writer.writer Writer.szToken1 Writer.lineNumber].
    rewrite readLine_END.
    cbn [Writer.currentTable Writer.writer Writer.szToken1 Writer.lineNumber].
    eexists. split; [reflexivity|]. split.
    + eapply mapOnly_trans; [apply setTableMap_mapOnly|apply setColumnMap_mapOnly].
    + unfold Writer.setColumnMap. rewrite Hmap. simpl. rewrite Hcl. simpl.
      apply lookup_insert_eq.
Qed.

Lemma readMapFile_column_scope_witness :
  Writer.readMapFile "sql.map"
    (Some ("; comment" +:+ LF +:+ LF +:+ "COLUMN [c]=[col]")) (Writer.create MYSQL) =
    Aborted (Writer.create MYSQL)
      [clog_file "sql.map";
       clog_line "Syntax command on line: " 3
         " - COLUMN directive found, but no TABLE directive in force."]
      (CRuntimeError "MAPPED SQL WRITER: Syntax Error." (Some E_SQLWRITER_SYNTAXERROR)) /\
  exists w',
    Writer.readMapFile "sql.map"
      (Some (directive TABLE "t" "tbl" +:+ LF +:+ directive COLUMN "c" "col" +:+ LF
             +:+ END +:+ LF))
      (Writer.createColumn "t" "c" (Writer.createTable "t" (Writer.create MYSQL)).2).2 =
      Loaded w' /\
    mapOnly (Writer.createColumn "t" "c" (Writer.createTable "t" (Writer.create MYSQL)).2).2 w' /\
    databaseMap w' !! "t" =
      Some {| tableName := ("t", "tbl");
              columnData :=
                <[ "c" := {| columnName := ("c", "col") |} ]>
                  (<[ "c" := {| columnName := ("c", "") |} ]> ∅) |}.
Proof.
  split.
  - apply (proj1 readMapFile_column_scope "sql.map"
             ("; comment" +:+ LF +:+ LF +:+ "COLUMN [c]=[col]") (Writer.create MYSQL)
             ["; comment"; ""] "COLUMN [c]=[col]" [] (Writer.Build_mapLoop (Writer.create MYSQL) "" "" 3));
      reflexivity.
  - exact (proj2 readMapFile_column_scope "sql.map"
             (Writer.createColumn "t" "c" (Writer.createTable "t" (Writer.create MYSQL)).2).2
             "t" "tbl" "c" "col"
             {| tableName := ("t", ""); columnData := <[ "c" := {| columnName := ("c", "") |} ]> ∅ |}
             {| columnName := ("c", "") |}
             eq_refl eq_refl eq_refl eq_refl
             ltac:(discriminate) ltac:(discriminate) ltac:(discriminate) ltac:(discriminate)
             eq_refl eq_refl).
Defined.

(** * Further properties of the code *)

(** ** Loops over several lists *)

Lemma joinFrom_app first sep l1 l2 :
  joinFrom first sep l1 +:+ joinFrom (first && bool_decide (l1 = [])) sep l2 =
  joinFrom first sep (l1 ++ l2).
Proof.
  destruct first; simpl.
  - destruct l1 as [|x l1]; [reflexivity|].
    rewrite bool_decide_eq_false_2 by discriminate. unfold joinFrom.
    change ((x :: l1) ++ l2) with (x :: (l1 ++ l2)).
    rewrite !joinWith_cons, joinTail_app, app_assoc. reflexivity.
  - unfold joinFrom. rewrite joinTail_app. reflexivity.
Qed.

Lemma createWhereClause_eq w :
  Writer.createWhereClause w =
  " WHERE " +:+ joinWith " AND " (map whereEntry (whereFields w)).
Proof.
  unfold Writer.createWhereClause.
  rewrite (foldl_sep " AND " whereEntry); [reflexivity|].
  intros rv first [[column oper] value]. unfold whereEntry, Writer.getColumnMap,
    Writer.upsertValueText. simpl.
  destruct (is_string value); rewrite !app_assoc; reflexivity.
Qed.

Lemma createOrderByClause_eq w :
  Writer.createOrderByClause w =
  " ORDER BY " +:+ joinWith ", " (map orderByEntry (orderByFields w)).
Proof.
  unfold Writer.createOrderByClause.
  rewrite (foldl_sep ", " orderByEntry); [reflexivity|].
  intros rv first [column [|]]; unfold orderByEntry, Writer.getColumnMap; simpl;
    rewrite !app_assoc; reflexivity.
Qed.

Lemma createSetClause_eq w :
  setFields w <> [] ->
  Writer.createSetClause w =
  OK ("SET " +:+ joinWith ", " (map setEntry (setFields w))).
Proof.
  intros H. unfold Writer.createSetClause.
  rewrite (bool_decide_eq_false_2 _ H). simpl.
  rewrite (foldl_sep ", " setEntry); [reflexivity|].
  intros rv first [column value]. unfold setEntry. simpl.
  rewrite insertValueText_formatValue, !app_assoc. reflexivity.
Qed.

Lemma createJoinClause_acc l : forall acc,
  foldl (fun (returnValue : string) (element : parameterJoin) =>
      let '(get0, get1, get2, get3, get4) := element in
      let returnValue :=
        match get2 with
        | JOIN_LEFT => returnValue +:+ " LEFT JOIN "
        | JOIN_RIGHT => returnValue +:+ " RIGHT JOIN "
        | JOIN_INNER => returnValue +:+ " INNER JOIN "
        | JOIN_FULL => returnValue +:+ "FULL JOIN "
        end in
      let returnValue := returnValue +:+ (get3 +:+ " ON ") in
      returnValue +:+
        ((((((get0 +:+ ".") +:+ get1) +:+ "=") +:+ get3) +:+ ".") +:+ get4))
    acc l = acc +:+ concatAll (map joinEntry l).
Proof.
  induction l as [|[[[[t0 c0] k] t1] c1] l IH]; intros acc; simpl.
  - rewrite app_nil_r. reflexivity.
  - rewrite IH. destruct k; rewrite !app_assoc; reflexivity.
Qed.

Lemma createJoinClause_eq w :
  Writer.createJoinClause w = concatAll (map joinEntry (joinFields w)).
Proof. unfold Writer.createJoinClause. rewrite createJoinClause_acc. reflexivity. Qed.

Lemma guard_foldl {A B : Type} (f : A -> B -> A) (a : A) (l : list B) :
  (if negb (bool_decide (l = [])) then foldl f a l else a) = foldl f a l.
Proof. destruct l; reflexivity. Qed.

Lemma map_nil_decide {A B : Type} `{EqDecision A, EqDecision B} (f : A -> B) (l : list A) :
  bool_decide (map f l = []) = bool_decide (l = []).
Proof. destruct l; reflexivity. Qed.

Lemma projection_join sel cl mx mn :
  joinWith ", " (sel ++ cl ++ mx ++ mn) =
  joinFrom true ", " sel
  +:+ joinFrom (true && bool_decide (sel = [])) ", " cl
  +:+ joinFrom (true && bool_decide (sel = []) && bool_decide (cl = [])) ", " mx
  +:+ joinFrom (true && bool_decide (sel = []) && bool_decide (cl = [])
                && bool_decide (mx = [])) ", " mn.
Proof.
  change (joinWith ", " (sel ++ cl ++ mx ++ mn))
    with (joinFrom true ", " (sel ++ cl ++ mx ++ mn)).
  rewrite <- !joinFrom_app. reflexivity.
Qed.

Lemma createSelectClause_eq w :
  Writer.createSelectClause w =
  "SELECT " +:+ selectPrefix w +:+ joinWith ", " (projectionList w).
Proof.
  unfold Writer.createSelectClause, selectPrefix, projectionList.
  rewrite projection_join.
  rewrite (foldl_sep ", " id) by reflexivity. rewrite map_id.
  destruct (countValue w) as [countExpression|]; unfold countEntry;
    [destruct (String.eqb countExpression "*")|];
    cbv beta iota; rewrite guard_foldl;
    rewrite (foldl_sep ", " (aggregateEntry "MAX("))
      by (intros; apply (aggregate_step "MAX("));
    cbv beta iota; rewrite guard_foldl;
    rewrite (foldl_sep ", " (aggregateEntry "MIN("))
      by (intros; apply (aggregate_step "MIN("));
    cbv beta iota;
    rewrite ?map_nil_decide;
    rewrite ?(bool_decide_eq_false_2 ([_] = [])) by discriminate;
    rewrite ?(bool_decide_eq_true_2 (@nil string = [])) by reflexivity;
    destruct (bool_decide (selectFields w = [])),
             (bool_decide (maxFields w = []));
    cbn [andb joinFrom joinWith joinTail];
    destruct (dialect w), (limitValue w), (distinct_ w);
    rewrite ?app_assoc, ?app_nil_r, ?app_nil_l; reflexivity.
Qed.

Section two_text_loop.
Context {A : Type} (f g : A -> string).
Variable step : string * string * bool -> A -> string * string * bool.
Hypothesis step_eq : forall names values first x,
  step (names, values, first) x =
  ((if first then names else names +:+ ", ") +:+ f x,
   (if first then values else values +:+ ", ") +:+ g x, false).

Lemma foldl_sep2 l : forall names values first,
  foldl step (names, values, first) l =
  (names +:+ joinFrom first ", " (map f l),
   values +:+ joinFrom first ", " (map g l),
   first && bool_decide (l = [])).
Proof.
  induction l as [|x l IH]; intros names values first.
  - simpl. destruct first; simpl; rewrite !app_nil_r; reflexivity.
  - cbn [foldl]. rewrite step_eq, IH.
    change (map f (x :: l)) with (f x :: map f l).
    change (map g (x :: l)) with (g x :: map g l).
    destruct first; unfold joinFrom; rewrite ?joinWith_cons; simpl;
      rewrite ?app_assoc; reflexivity.
Qed.
End two_text_loop.

Lemma createUpsertQuery_eq w :
  dialect w = MYSQL ->
  Writer.createUpsertQuery w =
  OK ("INSERT INTO " +:+ insertTable w +:+ "(" +:+ joinWith ", " (upsertColumns w)
      +:+ ") VALUES (" +:+ joinWith ", " (upsertValues w)
      +:+ ") ON DUPLICATE KEY UPDATE "
      +:+ joinWith ", " (map upsertEntry (setFields w))).
Proof.
  intros Hd. unfold Writer.createUpsertQuery, upsertColumns, upsertValues.
  rewrite Hd. simpl.
  rewrite (foldl_sep2 (fun element : parameterTriple => element.1.1)
             (fun element : parameterTriple => Writer.upsertValueText (element.2))).
  2:{ intros names values first x. destruct first; reflexivity. }
  rewrite (foldl_sep2 (fun element : parameterPair => element.1)
             (fun element : parameterPair => Writer.upsertValueText (element.2))).
  2:{ intros names values first x. destruct first; reflexivity. }
  rewrite (foldl_sep ", " upsertEntry).
  2:{ intros rv first x. unfold upsertEntry, Writer.getColumnMap.
      rewrite !app_assoc. reflexivity. }
  cbn [fst].
  assert (Hj : forall a b : list string,
            joinWith ", " (a ++ b) =
            joinFrom true ", " a +:+ joinFrom (true && bool_decide (a = [])) ", " b).
  { intros a b. rewrite joinFrom_app. reflexivity. }
  rewrite !Hj, !map_nil_decide, !app_nil_l, !app_assoc. reflexivity.
Qed.

(** ** Statements and clauses in closed form *)

(** X1: a Delete always renders, as [DELETE FROM <table> WHERE ] followed by
    the predicates, each in its own parentheses, joined by [ AND ]. *)
Theorem delete_statement (w : sqlWriter) :
  queryType w = qt_delete ->
  Writer.string w =
    OK ("DELETE FROM " +:+ deleteTable w +:+ " WHERE "
        +:+ joinWith " AND " (map whereEntry (whereFields w))).
Proof.
  intros Hq. unfold Writer.string, Writer.createDeleteQuery. rewrite Hq.
  rewrite createWhereClause_eq. unfold Writer.getColumnMap.
  rewrite !app_assoc. reflexivity.
Qed.

Lemma delete_statement_witness :
  Writer.string
    (Writer.where_ [("a", "=", P_integer 1); ("b", "LIKE", P_string "x%")]
       (Writer.deleteFrom "t" (Writer.create MYSQL))) =
  OK "DELETE FROM t WHERE (a = 1) AND (b LIKE 'x%')".
Proof.
  apply (delete_statement
           (Writer.where_ [("a", "=", P_integer 1); ("b", "LIKE", P_string "x%")]
              (Writer.deleteFrom "t" (Writer.create MYSQL)))).
  reflexivity.
Defined.

(** X2: an Update with at least one SET field renders as
    [UPDATE <table> SET <col = value, ...> WHERE <predicates>]; values are
    formatted as in an Insert. *)
Theorem update_statement (w : sqlWriter) :
  queryType w = qt_update -> setFields w <> [] ->
  Writer.string w =
    OK ("UPDATE " +:+ updateTable w +:+ " SET "
        +:+ joinWith ", " (map setEntry (setFields w))
        +:+ " WHERE " +:+ joinWith " AND " (map whereEntry (whereFields w))).
Proof.
  intros Hq Hs. unfold Writer.string, Writer.createUpdateQuery. rewrite Hq.
  rewrite (createSetClause_eq w Hs), createWhereClause_eq. simpl.
  rewrite !app_assoc. reflexivity.
Qed.

Lemma update_statement_witness :
  Writer.string
    (Writer.where_ [("id", "=", P_integer 7)]
       (Writer.set_list [("a", P_string "x"); ("b", P_bindValue "p")]
          (Writer.update "t" (Writer.create MYSQL)))) =
  OK "UPDATE t SET a = 'x', b = :p WHERE (id = 7)".
Proof.
  apply (update_statement
           (Writer.where_ [("id", "=", P_integer 7)]
              (Writer.set_list [("a", P_string "x"); ("b", P_bindValue "p")]
                 (Writer.update "t" (Writer.create MYSQL)))));
    [reflexivity|discriminate].
Defined.

(** X3: the SELECT clause is the keyword, [TOP n ] under the Microsoft
    dialect with a limit, [DISTINCT ] when asked for, and then one
    comma-joined list: the select fields, the count, the MAX entries and the
    MIN entries, in that order whatever the order of the calls. *)
Theorem select_clause_projection (w : sqlWriter) :
  Writer.createSelectClause w =
    "SELECT " +:+ selectPrefix w +:+ joinWith ", " (projectionList w) /\
  forall column as_,
    Writer.createSelectClause (Writer.count "*" (Writer.max column as_ w)) =
    Writer.createSelectClause (Writer.max column as_ (Writer.count "*" w)).
Proof.
  split; [apply createSelectClause_eq|].
  intros column as_. rewrite !createSelectClause_eq. reflexivity.
Qed.

(** X4: the JOIN clause is the joins one after the other in call order, each
    as [<kind> JOIN <right> ON <left>.<col>=<right>.<col>]; a later [join]
    call adds to the end. *)
Theorem join_clause_text (w : sqlWriter) (fields : list parameterJoin) :
  Writer.createJoinClause (Writer.join fields w) =
    concatAll (map joinEntry (joinFields w ++ fields)) /\
  Writer.createJoinClause (Writer.join fields w) =
    Writer.createJoinClause w +:+ concatAll (map joinEntry fields).
Proof.
  rewrite !createJoinClause_eq, join_eq. simpl. split; [reflexivity|].
  rewrite map_app. induction (map joinEntry (joinFields w)) as [|x l IH];
    [reflexivity|]. simpl. rewrite IH, app_assoc. reflexivity.
Qed.

(** X5: the ORDER BY clause is the keys in call order, comma-joined, each
    followed by its direction and a space. *)
Theorem orderBy_clause_text (w : sqlWriter) (fields : list (string * EOrderBy)) :
  Writer.createOrderByClause (Writer.orderBy fields w) =
    " ORDER BY " +:+ joinWith ", " (map orderByEntry (orderByFields w ++ fields)).
Proof. rewrite createOrderByClause_eq, orderBy_eq. reflexivity. Qed.

(** X6: the WHERE clause is the predicates in call order joined by [ AND ],
    each written as [(<column> <operator> <value>)] with the operator as
    given; [where] does not consult [verifyOperator]. *)
Theorem where_clause_text (w : sqlWriter) (fields : list parameterTriple) :
  Writer.createWhereClause (Writer.where_ fields w) =
    " WHERE " +:+ joinWith " AND " (map whereEntry (whereFields w ++ fields)).
Proof. rewrite createWhereClause_eq, where_eq. reflexivity. Qed.

Lemma createLimitClause_ok w :
  dialect w <> MICROSOFT -> exists limitText, Writer.createLimitClause w = OK limitText.
Proof.
  intros Hd. unfold Writer.createLimitClause.
  destruct (dialect w); [|congruence|]; repeat case_match; eauto.
Qed.

(** X7: under MySQL and PostgreSQL a Select renders exactly when it has a
    projection source and a FROM source, and then as the SELECT clause, the
    FROM clause, the JOIN, WHERE and ORDER BY clauses that have entries, and
    the limit clause, in that order with nothing between them. *)
Theorem select_statement (w : sqlWriter) :
  queryType w = qt_select -> dialect w <> MICROSOFT ->
  ((exists text, Writer.string w = OK text) <->
   hasProjection w /\ fromFields w <> []) /\
  (hasProjection w -> fromFields w <> [] ->
   exists limitText,
     Writer.createLimitClause w = OK limitText /\
     Writer.string w =
       OK (Writer.createSelectClause w +:+ Writer.createFromClause w
           +:+ whenFilled (joinFields w) (Writer.createJoinClause w)
           +:+ whenFilled (whereFields w) (Writer.createWhereClause w)
           +:+ whenFilled (orderByFields w) (Writer.createOrderByClause w)
           +:+ limitText)).
Proof.
  intros Hq Hd.
  destruct (createLimitClause_ok w Hd) as [limitText Hl].
  assert (Hyes : hasProjection w -> fromFields w <> [] ->
            Writer.string w =
            OK (Writer.createSelectClause w +:+ Writer.createFromClause w
                +:+ whenFilled (joinFields w) (Writer.createJoinClause w)
                +:+ whenFilled (whereFields w) (Writer.createWhereClause w)
                +:+ whenFilled (orderByFields w) (Writer.createOrderByClause w)
                +:+ limitText)).
  { intros Hp Hf. unfold Writer.string, Writer.createSelectQuery.
    rewrite Hq, Hl. apply projection_test in Hp. rewrite Hp.
    rewrite (bool_decide_eq_false_2 _ Hf). simpl.
    destruct (joinFields w), (whereFields w), (orderByFields w); simpl;
      rewrite ?app_assoc, ?app_nil_r; reflexivity. }
  split; [split|].
  - intros [text Htext]. split.
    + destruct (decide (hasProjection w)) as [Hp|Hp]; [exact Hp|].
      unfold Writer.string in Htext. rewrite Hq in Htext.
      rewrite (createSelectQuery_no_projection w Hp) in Htext. discriminate.
    + intros Hf. unfold Writer.string in Htext. rewrite Hq in Htext.
      destruct (createSelectQuery_no_from w Hf) as (e & He & _).
      rewrite He in Htext. discriminate.
  - intros [Hp Hf]. eexists. apply (Hyes Hp Hf).
  - intros Hp Hf. exists limitText. split; [exact Hl|apply (Hyes Hp Hf)].
Qed.

Lemma select_statement_witness :
  Writer.string
    (Writer.orderBy [("a", ASC)]
       (Writer.from "t1" "" (Writer.select_fields ["a"; "b"] (Writer.create MYSQL)))) =
  OK "SELECT a, b FROM t1 ORDER BY a ASC ".
Proof.
  destruct (proj2 (select_statement
              (Writer.orderBy [("a", ASC)]
                 (Writer.from "t1" "" (Writer.select_fields ["a"; "b"] (Writer.create MYSQL))))
              eq_refl ltac:(discriminate))
              ltac:(left; discriminate) ltac:(discriminate))
    as (limitText & Hl & Hs).
  injection Hl as <-. exact Hs.
Defined.

(** X8: an Upsert renders under the MySQL dialect only, where it is
    [INSERT INTO <table>(<columns>) VALUES (<values>) ON DUPLICATE KEY UPDATE
    <col = value, ...>] with the predicates' columns and values first and
    those of the SET fields after; under any other dialect [string()] fails
    the assertion. *)
Theorem upsert_statement (w : sqlWriter) :
  queryType w = qt_upsert ->
  (dialect w = MYSQL ->
   Writer.string w =
     OK ("INSERT INTO " +:+ insertTable w +:+ "(" +:+ joinWith ", " (upsertColumns w)
         +:+ ") VALUES (" +:+ joinWith ", " (upsertValues w)
         +:+ ") ON DUPLICATE KEY UPDATE "
         +:+ joinWith ", " (map upsertEntry (setFields w)))) /\
  (dialect w <> MYSQL ->
   Writer.string w = Throw (CRuntimeAssert "Upsert only implemented for MYSQL.")).
Proof.
  intros Hq. unfold Writer.string. rewrite Hq. split.
  - apply createUpsertQuery_eq.
  - intros Hd. unfold Writer.createUpsertQuery.
    rewrite (bool_decide_eq_false_2 _ Hd). reflexivity.
Qed.

Lemma upsert_statement_witness :
  Writer.string
    (Writer.where_ [("ModificationType", "=", P_integer 1)]
       (Writer.set "Value" (P_boolean true)
          (Writer.upsert "tbl_scheduleModification" (Writer.create MYSQL)))) =
    OK ("INSERT INTO tbl_scheduleModification(ModificationType, Value) VALUES (1, true) "
        +:+ "ON DUPLICATE KEY UPDATE Value = true") /\
  Writer.string (Writer.upsert "t" (Writer.create POSTGRE)) =
    Throw (CRuntimeAssert "Upsert only implemented for MYSQL.").
Proof.
  split.
  - apply (proj1 (upsert_statement
                    (Writer.where_ [("ModificationType", "=", P_integer 1)]
                       (Writer.set "Value" (P_boolean true)
                          (Writer.upsert "tbl_scheduleModification" (Writer.create MYSQL))))
                    eq_refl)).
    reflexivity.
  - apply (proj2 (upsert_statement (Writer.upsert "t" (Writer.create POSTGRE)) eq_refl)).
    discriminate.
Defined.

(** X9: under the PostgreSQL dialect [limit] and [offset] have no effect on
    what [string()] returns. *)
Theorem postgre_ignores_limit (w : sqlWriter) (n : N) :
  dialect w = POSTGRE ->
  Writer.string (Writer.limit n w) = Writer.string w /\
  Writer.string (Writer.offset n w) = Writer.string w.
Proof.
  intros Hd. destruct w as [d q sf ff jf wf obf stf vf it ut dt lv ov cv di mx mn db].
  simpl in Hd. subst d. split; destruct q; reflexivity.
Qed.

Lemma postgre_ignores_limit_witness :
  Writer.string
    (Writer.limit 10 (Writer.from "t" "" (Writer.select_fields ["a"] (Writer.create POSTGRE)))) =
  OK "SELECT a FROM t".
Proof.
  rewrite (proj1 (postgre_ignores_limit
                    (Writer.from "t" "" (Writer.select_fields ["a"] (Writer.create POSTGRE)))
                    10 eq_refl)).
  reflexivity.
Defined.

Lemma mapOnly_string w w' : mapOnly w w' -> Writer.string w' = Writer.string w.
Proof. intros [m ->]. reflexivity. Qed.

(** X10: the database map has no part in rendering: declaring or mapping a
    table or a column, or loading a map file (whether the load succeeds or
    aborts), leaves the text or the error of [string()] as it was. *)
Theorem map_never_rendered (w : sqlWriter) :
  (forall t, Writer.string (Writer.createTable t w).2 = Writer.string w) /\
  (forall t c, Writer.string (Writer.createColumn t c w).2 = Writer.string w) /\
  (forall t m, Writer.string (Writer.setTableMap t m w) = Writer.string w) /\
  (forall t c m, Writer.string (Writer.setColumnMap t c m w) = Writer.string w) /\
  (forall ifn file,
     Writer.string (match Writer.readMapFile ifn file w with
                    | Loaded w' => w'
                    | Aborted w' _ _ => w'
                    end) = Writer.string w).
Proof.
  repeat split; intros; apply mapOnly_string;
    auto using createTable_mapOnly, createColumn_mapOnly, setTableMap_mapOnly,
      setColumnMap_mapOnly, readMapFile_mapOnly.
Qed.

(** ** A restarted builder and a fresh one *)

Ltac closed_forms :=
  unfold Writer.select_fields, Writer.select_table, Writer.insertInto_fields;
  rewrite ?from_list_eq, ?join_eq, ?orderBy_eq, ?set_list_eq, ?values_eq,
    ?where_eq, ?push_selectFields, ?push_selectFields_table.

Lemma rendered_mapOnly w w' : mapOnly w w' -> rendered w' = rendered w.
Proof. intros [m ->]. reflexivity. Qed.

Lemma perform_mapOnly c w :
  match c with
  | call_createTable _ | call_createColumn _ _ | call_setTableMap _ _
  | call_setColumnMap _ _ _ | call_readMapFile _ _ => mapOnly w (perform w c)
  | _ => True
  end.
Proof.
  destruct c; simpl;
    auto using createTable_mapOnly, createColumn_mapOnly, setTableMap_mapOnly,
      setColumnMap_mapOnly, readMapFile_mapOnly.
Qed.

Lemma rendered_perform c w :
  rendered (perform w c) = rendered (perform (rendered w) c).
Proof.
  pose proof (perform_mapOnly c w) as H1.
  pose proof (perform_mapOnly c (rendered w)) as H2.
  destruct c;
    try (rewrite (rendered_mapOnly _ _ H1), (rendered_mapOnly _ _ H2);
         destruct w; reflexivity);
    simpl; closed_forms;
    destruct w as [d q sf ff jf wf obf stf vf it ut dt lv ov cv di mx mn db];
    try reflexivity; destruct q; reflexivity.
Qed.

Lemma mapOnly_deleteTable w w' : mapOnly w w' -> deleteTable w' = deleteTable w.
Proof. intros [m ->]. reflexivity. Qed.

Lemma perform_deleteTable c w :
  (forall t, c <> call_deleteFrom t) -> deleteTable (perform w c) = deleteTable w.
Proof.
  intros Hc. pose proof (perform_mapOnly c w) as H1.
  destruct c; simpl in H1 |- *;
    try (apply mapOnly_deleteTable; exact H1);
    try (exfalso; eapply Hc; reflexivity);
    closed_forms; try reflexivity;
    unfold Writer.select, Writer.insertInto, Writer.update, Writer.upsert,
      Writer.restart; simpl; destruct (queryType w); reflexivity.
Qed.

Lemma perform_delete_kind c w :
  queryType (perform w c) = qt_delete ->
  (exists t, c = call_deleteFrom t) \/ queryType w = qt_delete.
Proof.
  intros H. destruct (entersKind c) eqn:Hc.
  - destruct c; try discriminate Hc; eauto;
      simpl in H; revert H; closed_forms; simpl; discriminate.
  - right. destruct (perform_queryType c w Hc) as [Heq|Heq]; congruence.
Qed.

Lemma renderAlike_perform c w1 w2 :
  renderAlike w1 w2 -> renderAlike (perform w1 c) (perform w2 c).
Proof.
  intros [He Hd]. split.
  - rewrite (rendered_perform c w1), (rendered_perform c w2), He. reflexivity.
  - intros Hq. destruct (perform_delete_kind c w1 Hq) as [[t ->]|Hq1].
    + reflexivity.
    + assert (Hc : (exists t, c = call_deleteFrom t) \/
                   (forall t, c <> call_deleteFrom t))
        by (destruct c; eauto; right; discriminate).
      destruct Hc as [[t ->]|Hc]; [reflexivity|].
      rewrite !perform_deleteTable by exact Hc. auto.
Qed.

Lemma renderAlike_run calls : forall w1 w2,
  renderAlike w1 w2 -> renderAlike (run calls w1) (run calls w2).
Proof.
  induction calls as [|c calls IH]; intros w1 w2 H; [exact H|].
  apply (IH (perform w1 c) (perform w2 c)), renderAlike_perform, H.
Qed.

Lemma renderAlike_string w1 w2 :
  renderAlike w1 w2 -> Writer.string w1 = Writer.string w2.
Proof.
  intros [He Hd].
  destruct w1 as [d q sf ff jf wf obf stf vf it ut dt lv ov cv di mx mn db].
  destruct w2 as [d' q' sf' ff' jf' wf' obf' stf' vf' it' ut' dt' lv' ov' cv' di' mx' mn' db'].
  unfold rendered, set_databaseMap, set_deleteTable in He. simpl in He, Hd.
  injection He as -> -> -> -> -> -> -> -> -> -> -> -> -> -> -> -> ->.
  destruct q'; try reflexivity. rewrite (Hd eq_refl). reflexivity.
Qed.

Lemma renderAlike_restart w c :
  queryType w <> qt_none -> entersKind c = true ->
  renderAlike (perform w c) (perform (Writer.create (dialect w)) c).
Proof.
  intros Hq Hc.
  destruct c; try discriminate Hc; simpl; closed_forms;
    unfold Writer.select, Writer.insertInto, Writer.update, Writer.upsert,
      Writer.deleteFrom;
    rewrite (restart_active w Hq);
    (split; [destruct w; reflexivity|simpl; try discriminate; reflexivity]).
Qed.

(** X11: starting a statement on a builder that has one in hand gives a
    builder that renders, now and after any further calls, exactly as a
    newly created builder of the same dialect given the same calls: nothing
    of the earlier statement, the delete table that [resetQuery] leaves
    behind included, reaches the output of [string()]. *)
Theorem restart_renders_as_fresh (w : sqlWriter) (c : call) (rest : list call) :
  queryType w <> qt_none -> entersKind c = true ->
  Writer.string (run rest (perform w c)) =
  Writer.string (run rest (perform (Writer.create (dialect w)) c)).
Proof.
  intros Hq Hc. apply renderAlike_string, renderAlike_run, renderAlike_restart;
    assumption.
Qed.

Lemma restart_renders_as_fresh_witness :
  Writer.string
    (run [call_from "u" ""; call_where [("k", "=", P_integer 2)]]
       (perform
          (Writer.where_ [("id", "=", P_integer 1)]
             (Writer.deleteFrom "old" (Writer.create MYSQL)))
          (call_select_fields ["a"]))) =
  OK "SELECT a FROM u WHERE (k = 2)".
Proof.
  rewrite (restart_renders_as_fresh
             (Writer.where_ [("id", "=", P_integer 1)]
                (Writer.deleteFrom "old" (Writer.create MYSQL)))
             (call_select_fields ["a"])
             [call_from "u" ""; call_where [("k", "=", P_integer 2)]]
             ltac:(discriminate) eq_refl).
  reflexivity.
Defined.

(** ** Fields across calls *)

Lemma run_select_state pre : forall w,
  Forall (fun c => entersKind c = false) pre ->
  (queryType (run pre w) = queryType w /\ selectFields (run pre w) = selectFields w) \/
  (queryType (run pre w) = qt_none /\ selectFields (run pre w) = []).
Proof.
  induction pre as [|c pre IH] using rev_ind; intros w H; [left; split; reflexivity|].
  apply Forall_app in H as [Hpre Hc]. inversion Hc as [|? ? Hk _]; subst.
  rewrite run_snoc.
  destruct (perform_selectFields c (run pre w) Hk) as [[Hq Hs]|[Hq Hs]];
    [|right; split; assumption].
  rewrite Hq, Hs. apply IH, Hpre.
Qed.

Lemma select_restarts_fields w :
  (queryType w = qt_none -> selectFields w = []) ->
  selectFields (Writer.select w) = [].
Proof.
  intros H. unfold Writer.select, Writer.restart. simpl.
  destruct (queryType w); auto.
Qed.

(** X12: select calls do not add up: after [select(table, fields)], a later
    [select(table2, fields2)] — with any calls between that start no
    statement — leaves exactly the fields of the later call, each qualified
    as [table2.field]; the same holds for [select(fields)]. *)
Theorem select_again_replaces (w : sqlWriter) (t1 t2 : string)
    (fields1 fields2 : list string) (pre : list call) :
  Forall (fun c => entersKind c = false) pre ->
  selectFields
    (Writer.select_table t2 fields2 (run pre (Writer.select_table t1 fields1 w))) =
    map (fun elem => t2 +:+ "." +:+ elem) fields2 /\
  selectFields
    (Writer.select_fields fields2 (run pre (Writer.select_table t1 fields1 w))) =
    fields2.
Proof.
  intros Hpre.
  assert (H : selectFields (Writer.select (run pre (Writer.select_table t1 fields1 w))) = []).
  { apply select_restarts_fields. intros Hnone.
    destruct (run_select_state pre (Writer.select_table t1 fields1 w) Hpre)
      as [[Hq _]|[_ Hs]]; [|exact Hs].
    exfalso. rewrite Hq in Hnone. revert Hnone.
    unfold Writer.select_table. rewrite push_selectFields_table. discriminate. }
  unfold Writer.select_table at 1, Writer.select_fields.
  rewrite push_selectFields_table, push_selectFields. simpl.
  change (selectFields (Writer.restart ?x)) with (selectFields (Writer.select x)).
  rewrite H. split; reflexivity.
Qed.

Lemma select_again_replaces_witness :
  selectFields
    (Writer.select_table "t2" ["b"]
       (run [call_from "t1" ""] (Writer.select_table "t1" ["a"] (Writer.create MYSQL)))) =
  ["t2.b"].
Proof.
  apply (select_again_replaces (Writer.create MYSQL) "t1" "t2" ["a"] ["b"]
           [call_from "t1" ""]).
  repeat constructor.
Defined.


Lemma run_no_kind pre : forall d,
  Forall (fun c => entersKind c = false) pre ->
  queryType (run pre (Writer.create d)) = qt_none.
Proof.
  intros d H.
  destruct (run_select_state pre (Writer.create d) H) as [[Hq _]|[Hq _]]; exact Hq.
Qed.

(** X14: the implicit reset needs a statement in hand: on a builder that
    has not entered a query kind, a kind-entering call keeps everything the
    earlier calls accumulated and only sets the kind and its own
    arguments. *)
Theorem first_statement_keeps_clauses (d : EDialect) (pre : list call) :
  Forall (fun c => entersKind c = false) pre ->
  let b := run pre (Writer.create d) in
  Writer.select b = set_queryType qt_select b /\
  (forall fields,
     Writer.select_fields fields b =
     set_selectFields fields (set_queryType qt_select b)) /\
  (forall t fields,
     Writer.insertInto_fields t fields b =
     set_selectFields fields (set_insertTable t (set_queryType qt_insert b))) /\
  (forall t, Writer.insertInto t b = set_insertTable t (set_queryType qt_insert b)) /\
  (forall t, Writer.update t b = set_updateTable t (set_queryType qt_update b)) /\
  (forall t, Writer.deleteFrom t b = set_deleteTable t (set_queryType qt_delete b)) /\
  (forall t, Writer.upsert t b = set_insertTable t (set_queryType qt_upsert b)).
Proof.
  intros Hpre b.
  assert (Hq : queryType b = qt_none) by apply (run_no_kind pre d Hpre).
  assert (Hs : selectFields b = []) by apply (run_no_kind_no_fields pre d Hq).
  assert (Hr : Writer.restart b = b) by (unfold Writer.restart; rewrite Hq; reflexivity).
  unfold Writer.select_fields, Writer.insertInto_fields, Writer.select,
    Writer.insertInto, Writer.update, Writer.deleteFrom, Writer.upsert.
  rewrite Hr. repeat split; intros; rewrite ?push_selectFields; simpl;
    rewrite ?Hs; reflexivity.
Qed.

Lemma first_statement_keeps_clauses_witness :
  Writer.string
    (Writer.from "t" ""
       (Writer.select_fields ["x"]
          (run [call_where [("ModificationType", "=", P_integer 1)]]
             (Writer.create MYSQL)))) =
  OK "SELECT x FROM t WHERE (ModificationType = 1)".
Proof.
  rewrite (proj1 (proj2 (first_statement_keeps_clauses MYSQL
                           [call_where [("ModificationType", "=", P_integer 1)]]
                           ltac:(repeat constructor))) ["x"]).
  reflexivity.
Defined.

(** ** Declaring and mapping names *)

(** X15: [createTable] declares a table once: it answers true exactly when
    the name was not declared, and then stores the table unmapped and with
    no column; on a declared name it answers false and changes nothing, so
    a second call never overwrites; other tables are untouched. *)
Theorem createTable_declares (w : sqlWriter) (t : string) :
  ((Writer.createTable t w).1 = true <-> databaseMap w !! t = None) /\
  (databaseMap w !! t = None ->
   databaseMap (Writer.createTable t w).2 !! t =
     Some {| tableName := (t, ""); columnData := ∅ |}) /\
  (is_Some (databaseMap w !! t) -> Writer.createTable t w = (false, w)) /\
  (forall t', t' <> t ->
     databaseMap (Writer.createTable t w).2 !! t' = databaseMap w !! t') /\
  Writer.createTable t (Writer.createTable t w).2 =
    (false, (Writer.createTable t w).2).
Proof.
  unfold Writer.createTable.
  destruct (databaseMap w !! t) as [table|] eqn:E; simpl;
    repeat split; intros; try destruct_and?; simplify_map_eq; eauto;
    try (by destruct H).
Qed.

Lemma createTable_declares_witness :
  databaseMap (Writer.createTable "t" (Writer.create MYSQL)).2 !! "t" =
    Some {| tableName := ("t", ""); columnData := ∅ |}.
Proof.
  apply (proj1 (proj2 (createTable_declares (Writer.create MYSQL) "t"))).
  reflexivity.
Defined.

(** X16: [createColumn] declares a column once under a declared table: it
    answers true exactly when the table is declared and the column is not,
    and then stores the column unmapped; otherwise it answers false and
    changes nothing; the table's name and its other columns, and the other
    tables, are untouched. *)
Theorem createColumn_declares (w : sqlWriter) (t c : string) :
  ((Writer.createColumn t c w).1 = true <->
   exists table, databaseMap w !! t = Some table /\ columnData table !! c = None) /\
  (forall table,
     databaseMap w !! t = Some table -> columnData table !! c = None ->
     databaseMap (Writer.createColumn t c w).2 !! t =
       Some {| tableName := tableName table;
               columnData := <[c := {| columnName := (c, "") |}]> (columnData table) |}) /\
  ((Writer.createColumn t c w).1 = false -> (Writer.createColumn t c w).2 = w) /\
  (forall t', t' <> t ->
     databaseMap (Writer.createColumn t c w).2 !! t' = databaseMap w !! t') /\
  (forall c', c' <> c ->
     columnsOf (Writer.createColumn t c w).2 t !! c' = columnsOf w t !! c') /\
  Writer.createColumn t c (Writer.createColumn t c w).2 =
    (false, (Writer.createColumn t c w).2).
Proof.
  unfold Writer.createColumn, columnsOf.
  destruct (databaseMap w !! t) as [table|] eqn:E; simpl;
    [destruct (columnData table !! c) as [column|] eqn:Ec; simpl|];
    repeat split; intros; repeat match goal with H : exists _, _ |- _ => destruct H end;
    try destruct_and?; simplify_map_eq; eauto.
Qed.

Lemma createColumn_declares_witness :
  databaseMap
    (Writer.createColumn "t" "c" (Writer.createTable "t" (Writer.create MYSQL)).2).2 !! "t" =
    Some {| tableName := ("t", "");
            columnData := <["c" := {| columnName := ("c", "") |}]> ∅ |}.
Proof.
  exact (proj1 (proj2 (createColumn_declares
                         (Writer.createTable "t" (Writer.create MYSQL)).2 "t" "c"))
           {| tableName := ("t", ""); columnData := ∅ |} eq_refl eq_refl).
Defined.

(** X17: [setTableMap] maps a declared table and declares nothing: on an
    undeclared name the writer is unchanged; on a declared one the mapped
    name is stored and the columns are kept; a later mapping replaces an
    earlier one; other tables are untouched. *)
Theorem setTableMap_maps (w : sqlWriter) (t m : string) :
  (databaseMap w !! t = None -> Writer.setTableMap t m w = w) /\
  (forall table,
     databaseMap w !! t = Some table ->
     databaseMap (Writer.setTableMap t m w) !! t =
       Some {| tableName := (t, m); columnData := columnData table |}) /\
  (forall t', t' <> t ->
     databaseMap (Writer.setTableMap t m w) !! t' = databaseMap w !! t') /\
  (forall m', Writer.setTableMap t m' (Writer.setTableMap t m w) =
              Writer.setTableMap t m' w).
Proof.
  unfold Writer.setTableMap.
  destruct (databaseMap w !! t) as [table|] eqn:E; simpl;
    repeat split; intros; simplify_map_eq; eauto.
  unfold set_databaseMap. simpl. rewrite insert_insert_eq. reflexivity.
Qed.

Lemma setTableMap_maps_witness :
  databaseMap (Writer.setTableMap "t" "tbl" (Writer.createTable "t" (Writer.create MYSQL)).2)
    !! "t" = Some {| tableName := ("t", "tbl"); columnData := ∅ |} /\
  Writer.setTableMap "u" "tbl" (Writer.create MYSQL) = Writer.create MYSQL.
Proof.
  split.
  - exact (proj1 (proj2 (setTableMap_maps (Writer.createTable "t" (Writer.create MYSQL)).2
                           "t" "tbl"))
             {| tableName := ("t", ""); columnData := ∅ |} eq_refl).
  - exact (proj1 (setTableMap_maps (Writer.create MYSQL) "u" "tbl") eq_refl).
Defined.

(** X18: [setColumnMap] maps a declared column and declares nothing: when
    the table or the column is not declared the writer is unchanged;
    otherwise the mapped name is stored under the column, and the table's
    own names, its other columns and the other tables are untouched. *)
Theorem setColumnMap_maps (w : sqlWriter) (t c m : string) :
  (columnsOf w t !! c = None -> Writer.setColumnMap t c m w = w) /\
  (forall table column,
     databaseMap w !! t = Some table -> columnData table !! c = Some column ->
     databaseMap (Writer.setColumnMap t c m w) !! t =
       Some {| tableName := tableName table;
               columnData := <[c := {| columnName := (c, m) |}]> (columnData table) |}) /\
  (forall t', t' <> t ->
     databaseMap (Writer.setColumnMap t c m w) !! t' = databaseMap w !! t') /\
  (forall c', c' <> c ->
     columnsOf (Writer.setColumnMap t c m w) t !! c' = columnsOf w t !! c').
Proof.
  unfold Writer.setColumnMap, columnsOf.
  destruct (databaseMap w !! t) as [table|] eqn:E; simpl;
    [destruct (columnData table !! c) as [column|] eqn:Ec; simpl|];
    repeat split; intros; simplify_map_eq; eauto.
Qed.

Lemma setColumnMap_maps_witness :
  Writer.setColumnMap "t" "c" "col" (Writer.createTable "t" (Writer.create MYSQL)).2 =
    (Writer.createTable "t" (Writer.create MYSQL)).2.
Proof.
  exact (proj1 (setColumnMap_maps (Writer.createTable "t" (Writer.create MYSQL)).2
                  "t" "c" "col") eq_refl).
Defined.

(** ** A load declares nothing *)

Lemma sameNames_refl w : sameNames w w.
Proof. split; reflexivity. Qed.

Lemma sameNames_trans w1 w2 w3 : sameNames w1 w2 -> sameNames w2 w3 -> sameNames w1 w3.
Proof.
  intros [H1 H2] [H3 H4]. split; [congruence|]. intros t. rewrite H4. apply H2.
Qed.

Lemma setTableMap_sameNames t m w : sameNames w (Writer.setTableMap t m w).
Proof.
  unfold Writer.setTableMap.
  destruct (databaseMap w !! t) as [table|] eqn:E; [|apply sameNames_refl].
  split; simpl.
  - apply dom_insert_lookup_L. eauto.
  - intros t'. unfold columnsOf. simpl.
    destruct (decide (t' = t)) as [->|Hne]; simplify_map_eq; reflexivity.
Qed.

Lemma setColumnMap_sameNames t c m w : sameNames w (Writer.setColumnMap t c m w).
Proof.
  unfold Writer.setColumnMap.
  destruct (databaseMap w !! t) as [table|] eqn:E; [|apply sameNames_refl].
  destruct (columnData table !! c) as [column|] eqn:Ec; [|apply sameNames_refl].
  split; simpl.
  - apply dom_insert_lookup_L. eauto.
  - intros t'. unfold columnsOf. simpl.
    destruct (decide (t' = t)) as [->|Hne]; simplify_map_eq; [|reflexivity].
    apply dom_insert_lookup_L. eauto.
Qed.

Lemma readLine_sameNames ifn textLine st :
  sameNames (Writer.writer st) (Writer.writer (stateOf (Writer.readLine ifn textLine st))).
Proof.
  unfold Writer.readLine.
  repeat case_match; simpl;
    auto using sameNames_refl, setTableMap_sameNames, setColumnMap_sameNames.
Qed.

Lemma readLines_sameNames ifn lines : forall st,
  sameNames (Writer.writer st) (Writer.writer (stateOf (Writer.readLines ifn lines st))).
Proof.
  induction lines as [|textLine rest IH]; intros st; simpl; [apply sameNames_refl|].
  pose proof (readLine_sameNames ifn textLine st) as H.
  destruct (Writer.readLine ifn textLine st) as [st'|st' clog e]; simpl in *; [|exact H].
  eapply sameNames_trans; [exact H|]. apply (IH (Writer.Build_mapLoop _ _ _ _)).
Qed.

(** X19: loading a map file declares and removes nothing: whether the load
    succeeds or aborts, the writer afterwards has the tables it had, and
    under each table the columns it had; only mapped names can differ. *)
Theorem readMapFile_keeps_names (ifn : string) (file : option string) (w : sqlWriter) :
  sameNames w (match Writer.readMapFile ifn file w with
               | Loaded w' => w'
               | Aborted w' _ _ => w'
               end).
Proof.
  unfold Writer.readMapFile. destruct file as [content|]; [|apply sameNames_refl].
  match goal with |- context [Writer.readLines ?i ?l ?st] =>
    pose proof (readLines_sameNames i l st) as H;
    destruct (Writer.readLines i l st) end; exact H.
Qed.

(** ** Lines the loader skips, accepts and refuses *)

Lemma readLine_skipped ifn textLine st :
  lineRead textLine = false -> Writer.readLine ifn textLine st = Writer.Continue st.
Proof.
  unfold lineRead, Writer.readLine. intros H. rewrite H. reflexivity.
Qed.

Lemma readLines_skipped ifn lines : forall st,
  Forall (fun textLine => lineRead textLine = false) lines ->
  exists n, Writer.readLines ifn lines st =
            Writer.Continue
              {| Writer.writer := Writer.writer st;
                 Writer.currentTable := Writer.currentTable st;
                 Writer.szToken1 := Writer.szToken1 st; Writer.lineNumber := n |}.
Proof.
  induction lines as [|textLine rest IH]; intros st H.
  - exists (Writer.lineNumber st). destruct st; reflexivity.
  - inversion H as [|? ? Hl Hrest]; subst. simpl.
    rewrite (readLine_skipped ifn textLine st Hl).
    destruct (IH (Writer.Build_mapLoop (Writer.writer st) (Writer.currentTable st)
                    (Writer.szToken1 st) (Writer.lineNumber st + 1)) Hrest) as [n Hn].
    exists n. exact Hn.
Qed.

(** X20: a map file with nothing but comment lines, empty lines and lines
    of a single character loads without error and leaves the writer as it
    was; a file that cannot be opened aborts with the path in the message
    and the writer as it was. *)
Theorem readMapFile_nothing_to_read (ifn : string) (w : sqlWriter) :
  (forall content,
     Forall (fun textLine => lineRead textLine = false) (Std.getlines content) ->
     Writer.readMapFile ifn (Some content) w = Loaded w) /\
  Writer.readMapFile ifn None w =
    Aborted w [] (CRuntimeError ("Could not open SQL map file:" +:+ ifn) None).
Proof.
  split; [|reflexivity].
  intros content H. rewrite readMapFile_eq.
  destruct (readLines_skipped ifn (Std.getlines content) (firstLine w) H) as [n ->].
  reflexivity.
Qed.

Lemma readMapFile_nothing_to_read_witness :
  Writer.readMapFile "sql.map" (Some ("; TABLE [t]=[tbl]" +:+ LF +:+ LF +:+ "x" +:+ LF))
    (Writer.create MYSQL) = Loaded (Writer.create MYSQL).
Proof.
  apply (proj1 (readMapFile_nothing_to_read "sql.map" (Writer.create MYSQL))).
  repeat constructor.
Defined.

Lemma readLine_raise_writer ifn textLine st st' clog e :
  Writer.readLine ifn textLine st = Writer.Raise st' clog e ->
  Writer.writer st' = Writer.writer st.
Proof.
  unfold Writer.readLine. intros H.
  repeat case_match; try discriminate; injection H as <- _ _; reflexivity.
Qed.

Lemma readMapFile_abort ifn content w before textLine after st st' clog e :
  Std.getlines content = before ++ textLine :: after ->
  Writer.readLines ifn before (firstLine w) = Writer.Continue st ->
  Writer.readLine ifn textLine st = Writer.Raise st' clog e ->
  Writer.readMapFile ifn (Some content) w = Aborted (Writer.writer st) clog e.
Proof.
  intros Hlines Hbefore Hline.
  rewrite readMapFile_eq, Hlines, readLines_app, Hbefore. cbn [Writer.readLines].
  rewrite Hline, (readLine_raise_writer _ _ _ _ _ _ Hline). reflexivity.
Qed.

Lemma command_line_read textLine :
  2 <= String.length (commandOf textLine) ->
  Std.front (commandOf textLine) <> ";"%char ->
  lineRead textLine = true.
Proof.
  unfold commandOf, lineRead. intros Hlen Hfront.
  set (p := Std.substr0 textLine (Std.find_first_of textLine " " (Std.idx 0))) in *.
  assert (Hl : 2 <= String.length textLine).
  { pose proof (substr0_length textLine (Std.find_first_of textLine " " (Std.idx 0))) as H0.
    pose proof (trim_left_length p). pose proof (trim_right_length (Std.trim_left p)).
    fold p in H0. unfold Std.trim in Hlen. lia. }
  apply andb_true_intro. split; [apply Nat.ltb_lt; lia|].
  apply negb_true_iff, Ascii.eqb_neq. intros Hsemi.
  assert (Hp : p <> "").
  { intros E. rewrite E in Hlen. simpl in Hlen. lia. }
  pose proof (substr0_front textLine _ Hp) as Hf. fold p in Hf.
  destruct p as [|c p']; [congruence|]. simpl in Hf.
  rewrite Hsemi in Hf. subst c.
  apply Hfront. apply (trim_front ";" p' eq_refl).
Qed.

Ltac open_line textLine Hread :=
  unfold Writer.readLine;
  change (Nat.ltb 1 (String.length textLine)
          && negb (Ascii.eqb (Std.front textLine) ";")) with (lineRead textLine);
  rewrite Hread; cbv zeta;
  change (Std.trim (Std.substr0 textLine (Std.find_first_of textLine " " (Std.idx 0))))
    with (commandOf textLine);
  change (Std.ltb (Std.find_first_of textLine "[" (Std.idx 0))
            (Std.find_first_of textLine "]" (Std.idx 0))) with (hasToken1 textLine).

Lemma eqb_neq_false (s t : string) : s <> t -> String.eqb s t = false.
Proof. intros H. apply String.eqb_neq. exact H. Qed.

Lemma readLine_no_token ifn textLine st :
  lineRead textLine = true -> commandOf textLine <> END -> hasToken1 textLine = false ->
  Writer.readLine ifn textLine st =
  Writer.Raise st []
    (CRuntimeError
       (((("Error in SQL map file:" +:+ ifn) +:+ "Syntax error on line: ")
         +:+ Std.to_string_int (Writer.lineNumber st))
        +:+ " - Needs at least one token.") None).
Proof.
  intros Hread Hcmd Htok. open_line textLine Hread.
  rewrite Htok, (eqb_neq_false _ _ Hcmd). reflexivity.
Qed.

Lemma readLine_unknown ifn textLine st :
  lineRead textLine = true ->
  commandOf textLine <> COLUMN -> commandOf textLine <> TABLE ->
  commandOf textLine <> END -> hasToken1 textLine = true ->
  exists st',
    Writer.readLine ifn textLine st =
    Writer.Raise st'
      [clog_file ifn; clog_line "Invalid command on line: " (Writer.lineNumber st) ""]
      (CRuntimeError "MAPPED SQL WRITER: Invalid Command."
         (Some E_SQLWRITER_INVALIDCOMMAND)).
Proof.
  intros Hread Hc Ht He Htok. open_line textLine Hread.
  rewrite Htok, (eqb_neq_false _ _ Hc), (eqb_neq_false _ _ Ht), (eqb_neq_false _ _ He).
  cbn [negb andb]. eexists. reflexivity.
Qed.

Lemma readLine_TABLE_open ifn textLine st :
  commandOf textLine = TABLE -> hasToken1 textLine = true ->
  Writer.currentTable st <> "" ->
  exists st',
    Writer.readLine ifn textLine st =
    Writer.Raise st'
      [clog_file ifn;
       clog_line "Syntax command on line: " (Writer.lineNumber st)
         " - TABLE directive found, but a TABLE directive is already specified."]
      Writer.syntaxError.
Proof.
  intros Hcmd Htok Hcur.
  assert (Hread : lineRead textLine = true).
  { apply command_line_read; rewrite Hcmd; [simpl; lia|discriminate]. }
  open_line textLine Hread. rewrite Htok, Hcmd.
  change (String.eqb TABLE END) with false.
  change (String.eqb TABLE COLUMN) with false.
  change (String.eqb TABLE TABLE) with true.
  cbn [negb andb Writer.currentTable Writer.writer Writer.szToken1 Writer.lineNumber].
  rewrite (proj2 (empty_false _) Hcur). cbn [negb]. eexists. reflexivity.
Qed.

Lemma find_npos textLine ch :
  Std.index_of ch textLine = None <->
  Std.find_first_of textLine ch (Std.idx 0) = Std.npos.
Proof.
  unfold Std.find_first_of. simpl.
  destruct (Std.index_of ch textLine); split; intros; congruence.
Qed.

Lemma readLine_END_line ifn textLine st :
  commandOf textLine = END ->
  (bareLine textLine = true ->
   Writer.readLine ifn textLine st =
   Writer.Continue
     {| Writer.writer := Writer.writer st; Writer.currentTable := "";
        Writer.szToken1 := Writer.szToken1 st;
        Writer.lineNumber := Writer.lineNumber st |}) /\
  (bareLine textLine = false ->
   exists st',
     Writer.readLine ifn textLine st =
     Writer.Raise st'
       [clog_file ifn; clog_line "Syntax command on line: " (Writer.lineNumber st) ""]
       Writer.syntaxError).
Proof.
  intros Hcmd.
  assert (Hread : lineRead textLine = true).
  { apply command_line_read; rewrite Hcmd; [simpl; lia|discriminate]. }
  unfold bareLine. split; intros Hbare.
  - apply andb_true_iff in Hbare as [Hbare H3].
    apply andb_true_iff in Hbare as [H1 H2].
    apply bool_decide_eq_true in H1, H2, H3.
    apply find_npos in H1, H2, H3.
    unfold Writer.readLine.
    change (Nat.ltb 1 (String.length textLine)
            && negb (Ascii.eqb (Std.front textLine) ";")) with (lineRead textLine).
    rewrite Hread. cbv zeta.
    change (Std.trim (Std.substr0 textLine (Std.find_first_of textLine " " (Std.idx 0))))
      with (commandOf textLine).
    rewrite Hcmd, H1, H2, H3. reflexivity.
  - open_line textLine Hread. rewrite Hcmd.
    change (String.eqb END END) with true.
    change (String.eqb END COLUMN) with false.
    change (String.eqb END TABLE) with false.
    cbn [negb andb].
    assert (Hnot : Std.size_t_eqb (Std.find_first_of textLine "[" (Std.idx 0)) Std.npos
                   && Std.size_t_eqb (Std.find_first_of textLine "]" (Std.idx 0)) Std.npos
                   && Std.size_t_eqb
                        (Std.find_first_of textLine "["
                           (Std.find_first_of textLine "=" (Std.idx 0))) Std.npos
                   && Std.size_t_eqb
                        (Std.find_first_of textLine "]"
                           (Std.find_first_of textLine "=" (Std.idx 0))) Std.npos
                   && Std.size_t_eqb (Std.find_first_of textLine "=" (Std.idx 0)) Std.npos
                   = false).
    { apply not_true_is_false. intros Hall.
      repeat (apply andb_true_iff in Hall as [Hall ?]).
      assert (Hx : forall ch, Std.size_t_eqb (Std.find_first_of textLine ch (Std.idx 0)) Std.npos = true ->
                              Std.index_of ch textLine = None).
      { intros ch Hch. apply find_npos.
        destruct (Std.find_first_of textLine ch (Std.idx 0)); [discriminate|reflexivity]. }
      rewrite (proj2 (bool_decide_eq_true _) (Hx "["%char Hall)) in Hbare.
      rewrite (proj2 (bool_decide_eq_true _) (Hx "]"%char ltac:(assumption))) in Hbare.
      rewrite (proj2 (bool_decide_eq_true _) (Hx "="%char ltac:(assumption))) in Hbare.
      discriminate. }
    rewrite Hnot, andb_false_r.
    cbn [Writer.currentTable Writer.writer Writer.szToken1 Writer.lineNumber].
    eexists. reflexivity.
Qed.

Lemma readLines_lineNumber_first ifn before w st :
  Writer.readLines ifn before (firstLine w) = Writer.Continue st ->
  Writer.lineNumber st = (1 + Z.of_nat (length before))%Z.
Proof. intros H. apply readLines_lineNumber in H. exact H. Qed.

(** X21: a TABLE directive met while a table scope is still open aborts the
    load with the syntax error, the file and the 1-based line number going
    to [std::clog]; table blocks cannot nest or follow each other without
    END. *)
Theorem readMapFile_table_in_scope
    (ifn content : string) (w : sqlWriter) (before after : list string)
    (textLine : string) (st : Writer.mapLoop) :
  Std.getlines content = before ++ textLine :: after ->
  Writer.readLines ifn before (firstLine w) = Writer.Continue st ->
  Writer.currentTable st <> "" ->
  commandOf textLine = TABLE -> hasToken1 textLine = true ->
  Writer.readMapFile ifn (Some content) w =
    Aborted (Writer.writer st)
      [clog_file ifn;
       clog_line "Syntax command on line: " (1 + Z.of_nat (length before))
         " - TABLE directive found, but a TABLE directive is already specified."]
      (CRuntimeError "MAPPED SQL WRITER: Syntax Error." (Some E_SQLWRITER_SYNTAXERROR)).
Proof.
  intros Hlines Hbefore Hcur Hcmd Htok.
  destruct (readLine_TABLE_open ifn textLine st Hcmd Htok Hcur) as [st' Hline].
  rewrite (readLines_lineNumber_first _ _ _ _ Hbefore) in Hline.
  exact (readMapFile_abort _ _ _ _ _ _ _ _ _ _ Hlines Hbefore Hline).
Qed.

(** X22: a line that is read and whose command word is none of TABLE,
    COLUMN and END aborts the load with the invalid-command error, the file
    and the 1-based line number going to [std::clog]. *)
Theorem readMapFile_unknown_command
    (ifn content : string) (w : sqlWriter) (before after : list string)
    (textLine : string) (st : Writer.mapLoop) :
  Std.getlines content = before ++ textLine :: after ->
  Writer.readLines ifn before (firstLine w) = Writer.Continue st ->
  lineRead textLine = true -> hasToken1 textLine = true ->
  commandOf textLine <> COLUMN -> commandOf textLine <> TABLE ->
  commandOf textLine <> END ->
  Writer.readMapFile ifn (Some content) w =
    Aborted (Writer.writer st)
      [clog_file ifn;
       clog_line "Invalid command on line: " (1 + Z.of_nat (length before)) ""]
      (CRuntimeError "MAPPED SQL WRITER: Invalid Command."
         (Some E_SQLWRITER_INVALIDCOMMAND)).
Proof.
  intros Hlines Hbefore Hread Htok Hc Ht He.
  destruct (readLine_unknown ifn textLine st Hread Hc Ht He Htok) as [st' Hline].
  rewrite (readLines_lineNumber_first _ _ _ _ Hbefore) in Hline.
  exact (readMapFile_abort _ _ _ _ _ _ _ _ _ _ Hlines Hbefore Hline).
Qed.

(** X23: a line that is read, is not an END line and has no opening bracket
    before its first closing bracket aborts the load, whatever its command
    word: the exception text carries the file and the 1-based line number
    and says that a token is needed. *)
Theorem readMapFile_needs_token
    (ifn content : string) (w : sqlWriter) (before after : list string)
    (textLine : string) (st : Writer.mapLoop) :
  Std.getlines content = before ++ textLine :: after ->
  Writer.readLines ifn before (firstLine w) = Writer.Continue st ->
  lineRead textLine = true -> hasToken1 textLine = false ->
  commandOf textLine <> END ->
  Writer.readMapFile ifn (Some content) w =
    Aborted (Writer.writer st) []
      (CRuntimeError
         (((("Error in SQL map file:" +:+ ifn) +:+ "Syntax error on line: ")
           +:+ Std.to_string_int (1 + Z.of_nat (length before)))
          +:+ " - Needs at least one token.") None).
Proof.
  intros Hlines Hbefore Hread Htok He.
  pose proof (readLine_no_token ifn textLine st Hread He Htok) as Hline.
  rewrite (readLines_lineNumber_first _ _ _ _ Hbefore) in Hline.
  exact (readMapFile_abort _ _ _ _ _ _ _ _ _ _ Hlines Hbefore Hline).
Qed.

(** X24: an END line must be bare.  With no bracket and no equals sign on
    the line it closes the table scope — also when none is open, which is
    no error; with any of them it aborts the load with the syntax error, the
    file and the 1-based line number going to [std::clog]. *)
Theorem readMapFile_end_line
    (ifn content : string) (w : sqlWriter) (before after : list string)
    (textLine : string) (st : Writer.mapLoop) :
  Std.getlines content = before ++ textLine :: after ->
  Writer.readLines ifn before (firstLine w) = Writer.Continue st ->
  commandOf textLine = END ->
  (bareLine textLine = true ->
   Writer.readLines ifn (before ++ [textLine]) (firstLine w) =
     Writer.Continue
       {| Writer.writer := Writer.writer st; Writer.currentTable := "";
          Writer.szToken1 := Writer.szToken1 st;
          Writer.lineNumber := 2 + Z.of_nat (length before) |}) /\
  (bareLine textLine = false ->
   Writer.readMapFile ifn (Some content) w =
     Aborted (Writer.writer st)
       [clog_file ifn;
        clog_line "Syntax command on line: " (1 + Z.of_nat (length before)) ""]
       (CRuntimeError "MAPPED SQL WRITER: Syntax Error." (Some E_SQLWRITER_SYNTAXERROR))).
Proof.
  intros Hlines Hbefore Hcmd.
  destruct (readLine_END_line ifn textLine st Hcmd) as [Hbare Hnot].
  pose proof (readLines_lineNumber_first _ _ _ _ Hbefore) as Hn.
  split; intros H.
  - rewrite readLines_app, Hbefore. cbn [Writer.readLines].
    rewrite (Hbare H). cbn [Writer.currentTable Writer.writer Writer.szToken1 Writer.lineNumber].
    rewrite Hn. do 2 f_equal. lia.
  - destruct (Hnot H) as [st' Hline]. rewrite Hn in Hline.
    exact (readMapFile_abort _ _ _ _ _ _ _ _ _ _ Hlines Hbefore Hline).
Qed.

Lemma readMapFile_table_in_scope_witness :
  Writer.readMapFile "sql.map" (Some ("TABLE [t]=[tbl]" +:+ LF +:+ "TABLE [u]=[v]"))
    (Writer.createTable "t" (Writer.create MYSQL)).2 =
  Aborted (Writer.setTableMap "t" "tbl" (Writer.createTable "t" (Writer.create MYSQL)).2)
    [clog_file "sql.map";
     clog_line "Syntax command on line: " 2
       " - TABLE directive found, but a TABLE directive is already specified."]
    (CRuntimeError "MAPPED SQL WRITER: Syntax Error." (Some E_SQLWRITER_SYNTAXERROR)).
Proof.
  exact (readMapFile_table_in_scope "sql.map"
           ("TABLE [t]=[tbl]" +:+ LF +:+ "TABLE [u]=[v]")
           (Writer.createTable "t" (Writer.create MYSQL)).2
           ["TABLE [t]=[tbl]"] [] "TABLE [u]=[v]"
           (Writer.Build_mapLoop
              (Writer.setTableMap "t" "tbl" (Writer.createTable "t" (Writer.create MYSQL)).2)
              "t" "t" 2)
           eq_refl eq_refl ltac:(discriminate) eq_refl eq_refl).
Defined.

Lemma readMapFile_unknown_command_witness :
  Writer.readMapFile "sql.map" (Some ("; names" +:+ LF +:+ "INDEX [i]=[idx]"))
    (Writer.create MYSQL) =
  Aborted (Writer.create MYSQL)
    [clog_file "sql.map"; clog_line "Invalid command on line: " 2 ""]
    (CRuntimeError "MAPPED SQL WRITER: Invalid Command." (Some E_SQLWRITER_INVALIDCOMMAND)).
Proof.
  exact (readMapFile_unknown_command "sql.map" ("; names" +:+ LF +:+ "INDEX [i]=[idx]")
           (Writer.create MYSQL) ["; names"] [] "INDEX [i]=[idx]"
           (Writer.Build_mapLoop (Writer.create MYSQL) "" "" 2)
           eq_refl eq_refl eq_refl eq_refl
           ltac:(discriminate) ltac:(discriminate) ltac:(discriminate)).
Defined.

Lemma readMapFile_needs_token_witness :
  Writer.readMapFile "sql.map" (Some "TABLE t=tbl") (Writer.create MYSQL) =
  Aborted (Writer.create MYSQL) []
    (CRuntimeError
       "Error in SQL map file:sql.mapSyntax error on line: 1 - Needs at least one token."
       None).
Proof.
  exact (readMapFile_needs_token "sql.map" "TABLE t=tbl" (Writer.create MYSQL)
           [] [] "TABLE t=tbl" (firstLine (Writer.create MYSQL))
           eq_refl eq_refl eq_refl eq_refl ltac:(discriminate)).
Defined.

Lemma readMapFile_end_line_witness :
  Writer.readLines "sql.map" ([] ++ ["END"]) (firstLine (Writer.create MYSQL)) =
    Writer.Continue (Writer.Build_mapLoop (Writer.create MYSQL) "" "" 2) /\
  Writer.readMapFile "sql.map" (Some "END [t]") (Writer.create MYSQL) =
    Aborted (Writer.create MYSQL)
      [clog_file "sql.map"; clog_line "Syntax command on line: " 1 ""]
      (CRuntimeError "MAPPED SQL WRITER: Syntax Error." (Some E_SQLWRITER_SYNTAXERROR)).
Proof.
  split.
  - exact (proj1 (readMapFile_end_line "sql.map" "END" (Writer.create MYSQL)
                    [] [] "END" (firstLine (Writer.create MYSQL)) eq_refl eq_refl eq_refl)
             eq_refl).
  - exact (proj2 (readMapFile_end_line "sql.map" "END [t]" (Writer.create MYSQL)
                    [] [] "END [t]" (firstLine (Writer.create MYSQL)) eq_refl eq_refl eq_refl)
             eq_refl).
Defined.

(** ** Directive lines with names that are not declared, or with no mapping *)












(** ** A whole TABLE block *)

Lemma getlines_single l :
  Std.index_of "010" l = None -> Std.getlines l = [l].
Proof.
  induction l as [|c l IH]; intros H; [reflexivity|].
  simpl in *. destruct (Ascii.eqb c "010"); [discriminate|].
  rewrite IH; [reflexivity|]. destruct (Std.index_of "010" l); [discriminate|reflexivity].
Qed.

Lemma getlines_joinWith lines :
  lines <> [] ->
  Forall (fun l => Std.index_of "010" l = None) lines ->
  Std.getlines (joinWith LF lines) = lines.
Proof.
  induction lines as [|l lines IH]; intros Hne H; [congruence|].
  inversion H as [|? ? Hl Hrest]; subst.
  destruct lines as [|l' lines]; [apply getlines_single, Hl|].
  change (joinWith LF (l :: l' :: lines))
    with (l +:+ String "010" (joinWith LF (l' :: lines))).
  rewrite (getlines_line l _ Hl), IH; [reflexivity|discriminate|exact Hrest].
Qed.

Lemma directive_no_LF cmd a b :
  Std.index_of "010" cmd = None -> plainToken a = true -> plainToken b = true ->
  Std.index_of "010" (directive cmd a b) = None.
Proof.
  intros Hc Ha Hb.
  destruct (plainToken_absent a Ha) as (_ & _ & _ & Ha').
  destruct (plainToken_absent b Hb) as (_ & _ & _ & Hb').
  unfold directive. absent_in_app.
Qed.

Lemma sameNames_declared w w' t c :
  sameNames w w' -> is_Some (columnsOf w t !! c) -> is_Some (columnsOf w' t !! c).
Proof.
  intros [_ H] Hc. apply elem_of_dom. rewrite H. apply elem_of_dom. exact Hc.
Qed.

Lemma readLines_columns ifn t columns : forall st rest,
  Writer.currentTable st = t -> t <> "" ->
  Forall (mappableColumn (Writer.writer st) t) columns ->
  exists token,
    Writer.readLines ifn
      (map (fun column : string * string => directive COLUMN (column.1) (column.2)) columns
       ++ rest) st =
    Writer.readLines ifn rest
      {| Writer.writer :=
           foldl (fun w (column : string * string) =>
                    Writer.setColumnMap t (column.1) (column.2) w)
             (Writer.writer st) columns;
         Writer.currentTable := t; Writer.szToken1 := token;
         Writer.lineNumber := Writer.lineNumber st + Z.of_nat (length columns) |}.
Proof.
  induction columns as [|[c col] columns IH]; intros st rest Hcur Hne Hall.
  - exists (Writer.szToken1 st). simpl. rewrite Z.add_0_r, <- Hcur.
    destruct st; reflexivity.
  - inversion Hall as [|? ? Hcol Hrest]; subst.
    destruct Hcol as (Hp1 & Hp2 & Hn1 & Hn2 & [column Hdecl]). simpl in *.
    rewrite (readLine_COLUMN ifn c col st column) by assumption.
    set (st1 := {| Writer.writer :=
                     Writer.setColumnMap (Writer.currentTable st) c col (Writer.writer st);
                   Writer.currentTable := Writer.currentTable st;
                   Writer.szToken1 := c;
                   Writer.lineNumber := (Writer.lineNumber st + 1)%Z |}).
    destruct (IH st1 rest eq_refl Hne) as [token Htok].
    { eapply Forall_impl; [exact Hrest|]. intros [c' col'] (Q1 & Q2 & Q3 & Q4 & Q5).
      repeat split; try assumption.
      eapply sameNames_declared; [|exact Q5]. apply setColumnMap_sameNames. }
    exists token. subst st1.
    cbn [Writer.currentTable Writer.writer Writer.szToken1 Writer.lineNumber] in *.
    rewrite Htok. do 2 f_equal. lia.
Qed.

Lemma setColumnMap_lookup_eq t c m w :
  is_Some (columnsOf w t !! c) ->
  columnsOf (Writer.setColumnMap t c m w) t !! c = Some {| columnName := (c, m) |}.
Proof.
  unfold Writer.setColumnMap, columnsOf.
  destruct (databaseMap w !! t) as [table|] eqn:E; simpl;
    [destruct (columnData table !! c) as [column|] eqn:Ec; simpl|];
    intros [x Hx]; simplify_map_eq; eauto.
Qed.

Lemma setColumnMap_lookup_ne t c c' m w :
  c' <> c -> columnsOf (Writer.setColumnMap t c m w) t !! c' = columnsOf w t !! c'.
Proof.
  unfold Writer.setColumnMap, columnsOf.
  destruct (databaseMap w !! t) as [table|] eqn:E; simpl;
    [destruct (columnData table !! c) as [column|] eqn:Ec; simpl|];
    intros Hne; simplify_map_eq; eauto.
Qed.

Lemma mapBlock_snoc t tbl columns column w :
  mapBlock t tbl (columns ++ [column]) w =
  Writer.setColumnMap t (column.1) (column.2) (mapBlock t tbl columns w).
Proof. unfold mapBlock. rewrite foldl_snoc. reflexivity. Qed.

Lemma mapBlock_sameNames t tbl columns w : sameNames w (mapBlock t tbl columns w).
Proof.
  induction columns as [|column columns IH] using rev_ind.
  - apply setTableMap_sameNames.
  - rewrite mapBlock_snoc. eapply sameNames_trans; [exact IH|].
    apply setColumnMap_sameNames.
Qed.

Lemma mapBlock_lookup t tbl columns w :
  NoDup (map fst columns) ->
  Forall (mappableColumn w t) columns ->
  forall c col, (c, col) ∈ columns ->
    columnsOf (mapBlock t tbl columns w) t !! c = Some {| columnName := (c, col) |}.
Proof.
  induction columns as [|[c0 col0] columns IH] using rev_ind; intros Hnd Hall c col Hin.
  - inversion Hin.
  - rewrite map_app in Hnd. apply NoDup_app in Hnd as (Hnd & Hdisj & _).
    apply Forall_app in Hall as [Hall Hlast].
    inversion Hlast as [|? ? (_ & _ & _ & _ & Hdecl) _]; subst.
    rewrite mapBlock_snoc. simpl.
    apply elem_of_app in Hin as [Hin|Hin].
    + assert (Hne : c <> c0).
      { intros ->. apply (Hdisj c0); [|simpl; left].
        apply list_elem_of_fmap. exists (c0, col). split; [reflexivity|exact Hin]. }
      rewrite setColumnMap_lookup_ne by exact Hne. apply (IH Hnd Hall c col Hin).
    + apply list_elem_of_singleton in Hin. injection Hin as -> ->.
      apply setColumnMap_lookup_eq.
      eapply sameNames_declared; [apply mapBlock_sameNames|exact Hdecl].
Qed.

(** X28: a TABLE block with any number of COLUMN lines loads as the
    mappings applied in file order: for a declared table and declared
    columns, with plain non-empty names, the file [TABLE [t]=[tbl]], one
    [COLUMN [c]=[col]] per column, [END] gives the writer with [tbl] stored
    for [t] and then each [col] stored for its [c]; when no column is named
    twice, every [c] ends up mapped to its [col]. *)
Theorem readMapFile_table_block
    (ifn : string) (w : sqlWriter) (t tbl : string)
    (columns : list (string * string)) (table : STableData) :
  plainToken t = true -> plainToken tbl = true -> t <> "" -> tbl <> "" ->
  databaseMap w !! t = Some table ->
  Forall (mappableColumn w t) columns ->
  Writer.readMapFile ifn (Some (joinWith LF (tableBlock t tbl columns))) w =
    Loaded (mapBlock t tbl columns w) /\
  (NoDup (map fst columns) ->
   forall c col, (c, col) ∈ columns ->
     columnsOf (mapBlock t tbl columns w) t !! c = Some {| columnName := (c, col) |}).
Proof.
  intros Ht Htbl Hte Htble Htab Hcols.
  split; [|intros Hnd; apply (mapBlock_lookup t tbl columns w Hnd Hcols)].
  rewrite readMapFile_eq, getlines_joinWith.
  2:{ discriminate. }
  2:{ unfold tableBlock. constructor; [apply directive_no_LF; auto|].
      apply Forall_app. split; [|repeat constructor].
      apply Forall_map. eapply Forall_impl; [exact Hcols|].
      intros [c col] (Q1 & Q2 & _). apply directive_no_LF; auto. }
  unfold tableBlock. cbn [Writer.readLines].
  rewrite (readLine_TABLE ifn t tbl (firstLine w) table)
    by first [assumption | reflexivity | exact Htab].
  unfold firstLine.
  cbn [Writer.currentTable Writer.writer Writer.szToken1 Writer.lineNumber].
  match goal with |- context [Writer.readLines _ _ ?st0] =>
    destruct (readLines_columns ifn t columns st0 [END] eq_refl Hte) as [token ->]
  end.
  { cbn [Writer.writer]. eapply Forall_impl; [exact Hcols|].
    intros [c col] (Q1 & Q2 & Q3 & Q4 & Q5). repeat split; try assumption.
    eapply sameNames_declared; [|exact Q5]. apply setTableMap_sameNames. }
  cbn [Writer.readLines]. rewrite readLine_END. reflexivity.
Qed.

Lemma readMapFile_table_block_witness :
  Writer.readMapFile "sql.map"
    (Some (joinWith LF (tableBlock "t" "tbl" [("a", "col_a"); ("b", "col_b")])))
    (Writer.createColumn "t" "b"
       (Writer.createColumn "t" "a" (Writer.createTable "t" (Writer.create MYSQL)).2).2).2 =
  Loaded
    (mapBlock "t" "tbl" [("a", "col_a"); ("b", "col_b")]
       (Writer.createColumn "t" "b"
          (Writer.createColumn "t" "a" (Writer.createTable "t" (Writer.create MYSQL)).2).2).2).
Proof.
  apply (proj1 (readMapFile_table_block "sql.map"
           (Writer.createColumn "t" "b"
              (Writer.createColumn "t" "a" (Writer.createTable "t" (Writer.create MYSQL)).2).2).2
           "t" "tbl" [("a", "col_a"); ("b", "col_b")]
           {| tableName := ("t", "");
              columnData := <["b" := {| columnName := ("b", "") |}]>
                              (<["a" := {| columnName := ("a", "") |}]> ∅) |}
           eq_refl eq_refl ltac:(discriminate) ltac:(discriminate) eq_refl
           ltac:(repeat constructor; try discriminate; simpl; eexists; reflexivity))).
Defined.
